(** * TSPL label printing: command emission and the readiness handshake

    A shallow embedding of the protocol layer of [barcode_printer_gui.py]
    (class [ThermalPrinter]) and of [print-badge.py] (classes [Badge] and
    [Printer]), followed by the properties of the emitted command
    sequences and of the status polling loop.

    Modelling conventions.
    - A Python [int] is a [Z]; the configuration fields are integers
      throughout the program (the constructor defaults and the [IntVar]
      fields of the form).
    - A Python [str] is represented by its UTF-8 encoding, held in a Rocq
      [string] (a sequence of 8-bit characters); [encode('utf-8')] is then
      the passage to [list byte].  Truthiness, concatenation and the
      matching of an ASCII pattern are unaffected by this choice.
    - A Python [bytes] is a [list byte].
    - Effects are recorded as a chronological trace of events; the device
      is an oracle giving the bytes available at each read, and writes to
      it always succeed.
    - The only loop without a bound, the wait for the printer, takes a
      fuel that bounds the evaluations of its condition; running out of
      fuel is the outcome [OutOfFuel], distinct from returning and from
      raising. *)

From Stdlib Require Import ZArith List String Ascii Bool Lia QArith.
From Stdlib Require Import DecimalString DecimalZ DecimalPos.
From Stdlib Require Import Strings.Byte.
Import ListNotations.

Local Open Scope Z_scope.
Local Open Scope list_scope.

(** ** Python primitives *)

Infix "^^" := String.append (at level 60, right associativity).

(** [str(n)] / the [{n}] field of an f-string, for an integer. *)
Definition str (z : Z) : string := NilZero.string_of_int (Z.to_int z).

(** Truth value of a string in a condition: non-empty. *)
Definition truthy (s : string) : bool :=
  match s with
  | EmptyString => false
  | String _ _ => true
  end.

Definition CR : ascii := ascii_of_nat 13.
Definition LF : ascii := ascii_of_nat 10.
Definition QUOTE : ascii := ascii_of_nat 34.

(** The string literals CR LF, LF and the double quote character. *)
Definition CRLF : string := String CR (String LF EmptyString).
Definition NL : string := String LF EmptyString.
Definition DQ : string := String QUOTE EmptyString.

(** [s.encode('utf-8')]. *)
Definition encode_utf8 (s : string) : list byte := list_byte_of_string s.

(** [b[i:j]] for [0 <= i <= j]: indices are clipped to the length. *)
Definition slice {A : Type} (i j : nat) (l : list A) : list A :=
  firstn (j - i) (skipn i l).

Definition is_ascii (b : byte) : bool := (Byte.to_N b <? 128)%N.

Inductive exn : Type :=
| UnicodeDecodeError
| Exception (msg : string).

(** [b.decode('ascii')]: fails on any byte above 127. *)
Definition decode_ascii (b : list byte) : exn + string :=
  if forallb is_ascii b then inr (string_of_list_byte b) else inl UnicodeDecodeError.

(** *** Regular expressions

    The fragment needed by the status pattern: a sequence of atoms, each
    matching one character. *)

Inductive atom : Type :=
| Lit (c : ascii)
| Class (cs : list ascii).

Definition atom_matches (a : atom) (c : ascii) : bool :=
  match a with
  | Lit c' => Ascii.eqb c' c
  | Class cs => existsb (Ascii.eqb c) cs
  end.

(** [re.fullmatch(p, s) is not None]. *)
Fixpoint fullmatch (p : list atom) (s : string) : bool :=
  match p, s with
  | [], EmptyString => true
  | a :: p', String c s' => atom_matches a c && fullmatch p' s'
  | _, _ => false
  end.

(** The pattern [r'[@BCFPW]@@@']. *)
Definition STATUS_RE : list atom :=
  [Class ["@"; "B"; "C"; "F"; "P"; "W"]%char; Lit "@"; Lit "@"; Lit "@"].

(** ** Effects *)

Inductive event : Type :=
| Stdout (line : string)                      (* print(line) *)
| Stderr (text : string)                      (* text written to sys.stderr *)
| Sleep (seconds : Q)                         (* time.sleep(seconds) *)
| DevWrite (data : list byte)                 (* os.write(self.printer, data) *)
| DevRead (n : nat) (data : list byte)        (* os.read(self.printer, n) returned data *)
| SpoolJob (printer : string) (payload : list byte).  (* one RAW win32print job *)

(** The environment of a run: what the device node holds at its k-th read
    and, when the Windows spooler refuses a job, the text of the error the
    win32print calls raise. *)
Record env : Type := mkEnv {
  device : nat -> list byte;
  spooler_error : option string
}.

(** The state threaded through a run: the object [self], the events so
    far (oldest first) and the number of reads already made. *)
Record state (O : Type) : Type := mkState {
  self : O;
  trace : list event;
  reads : nat
}.
Arguments mkState {O} _ _ _.
Arguments self {O} _.
Arguments trace {O} _.
Arguments reads {O} _.

Inductive outcome (O A : Type) : Type :=
| Ok (a : A) (s : state O)
| Raise (e : exn) (s : state O)
| OutOfFuel.
Arguments Ok {O A} _ _.
Arguments Raise {O A} _ _.
Arguments OutOfFuel {O A}.

Definition M (O A : Type) : Type := env -> state O -> outcome O A.

Definition ret {O A} (a : A) : M O A := fun _ s => Ok a s.

Definition bind {O A B} (m : M O A) (k : A -> M O B) : M O B :=
  fun e s =>
    match m e s with
    | Ok a s' => k a e s'
    | Raise x s' => Raise x s'
    | OutOfFuel => OutOfFuel
    end.

Declare Scope monad_scope.
Delimit Scope monad_scope with monad.
Notation "x <- c ;; k" := (bind c (fun x => k))
  (at level 100, c at next level, right associativity) : monad_scope.
Notation "c ;; k" := (bind c (fun _ => k))
  (at level 100, right associativity) : monad_scope.
Local Open Scope monad_scope.

Definition raise {O A} (x : exn) : M O A := fun _ s => Raise x s.
Definition out_of_fuel {O A} : M O A := fun _ _ => OutOfFuel.

Definition get_self {O} : M O O := fun _ s => Ok (self s) s.
Definition set_self {O} (o : O) : M O unit :=
  fun _ s => Ok tt (mkState o (trace s) (reads s)).

Definition emit {O} (ev : event) : M O unit :=
  fun _ s => Ok tt (mkState (self s) (trace s ++ [ev]) (reads s)).

(** [print(line)]. *)
Definition print_stdout {O} (line : string) : M O unit := emit (Stdout line).
(** [print(text, end=e, file=sys.stderr)]. *)
Definition print_stderr {O} (text e : string) : M O unit := emit (Stderr (text ^^ e)).
(** [time.sleep(seconds)]. *)
Definition time_sleep {O} (seconds : Q) : M O unit := emit (Sleep seconds).
(** [os.write(self.printer, data)]. *)
Definition os_write {O} (data : list byte) : M O unit := emit (DevWrite data).
(** [os.read(self.printer, n)]: at most [n] of the bytes the device holds. *)
Definition os_read {O} (n : nat) : M O (list byte) :=
  fun e s =>
    let data := firstn n (device e (reads s)) in
    Ok data (mkState (self s) (trace s ++ [DevRead n data]) (S (reads s))).

(** [for x in l: f(x)]. *)
Fixpoint for_each {O A} (l : list A) (f : A -> M O unit) : M O unit :=
  match l with
  | [] => ret tt
  | x :: rest => f x ;; for_each rest f
  end.

(** Lift the result of a pure fallible computation. *)
Definition lift {O A} (r : exn + A) : M O A :=
  match r with
  | inl x => raise x
  | inr a => ret a
  end.

(** The status probe: the bytes ESC ! S CR LF. *)
Definition STATUS_PROBE : list byte := [x1b; x21; x53; x0d; x0a].

(** ** [barcode_printer_gui.py] *)

Definition DOTS_MM : Z := 8.

Record BarcodeConfig : Type := mkConfig {
  width_mm : Z;
  height_mm : Z;
  gap_mm : Z;
  barcode_type : string;
  barcode_height : Z;
  barcode_width : Z;
  font_size : Z;
  top_text : string;
  bottom_text : string;
  barcode_data : string;
  orientation : Z;
  num_copies : Z
}.

(** [BarcodeConfig.__init__]. *)
Definition default_config : BarcodeConfig :=
  {| width_mm := 100; height_mm := 50; gap_mm := 2;
     barcode_type := "code128"; barcode_height := 15; barcode_width := 2;
     font_size := 24; top_text := ""; bottom_text := ""; barcode_data := "";
     orientation := 1; num_copies := 1 |}.

(** The attributes of a [ThermalPrinter] the protocol layer uses.
    [_command_buffer] is [None] while the attribute does not exist. *)
Record ThermalPrinter : Type := mkPrinter {
  printer_path : string;
  dry_run : bool;
  is_windows : bool;
  _command_buffer : option (list string)
}.

Definition set_buffer (p : ThermalPrinter) (b : option (list string)) : ThermalPrinter :=
  {| printer_path := printer_path p; dry_run := dry_run p;
     is_windows := is_windows p; _command_buffer := b |}.

Definition TP (A : Type) : Type := M ThermalPrinter A.

Definition printer_status : TP string :=
  p <- get_self ;;
  if dry_run p then ret "@@@@"%string
  else if is_windows p then ret "@@@@"%string
  else
    os_write STATUS_PROBE ;;
    status <- os_read 8 ;;
    lift (decode_ascii (slice 1 5 status)).

Definition can_print : TP bool :=
  p <- get_self ;;
  if dry_run p then ret true
  else if is_windows p then ret true
  else
    tok <- printer_status ;;
    ret (fullmatch STATUS_RE tok).

(** The [while not self.can_print(): time.sleep(1)] loop; [fuel] bounds
    the number of evaluations of its condition. *)
Fixpoint wait_loop (fuel : nat) : TP unit :=
  match fuel with
  | O => out_of_fuel
  | S fuel' =>
      ready <- can_print ;;
      if negb ready then (time_sleep 1 ;; wait_loop fuel') else ret tt
  end.

Definition wait_printer (fuel : nat) : TP unit :=
  p <- get_self ;;
  if dry_run p then ret tt
  else
    ready <- can_print ;;
    if negb ready then
      (print_stderr "Waiting for printer..." NL ;;
       time_sleep (1 # 2) ;;
       wait_loop fuel)
    else ret tt.

Definition command (cmd : string) : TP unit :=
  p <- get_self ;;
  if dry_run p then print_stdout cmd
  else if is_windows p then
    let buf := match _command_buffer p with
               | None => []
               | Some b => b
               end in
    set_self (set_buffer p (Some (buf ++ [cmd ^^ CRLF])))
  else
    os_write (encode_utf8 cmd) ;;
    os_write (encode_utf8 CRLF).

Definition setup_page (config : BarcodeConfig) : TP unit :=
  p <- get_self ;;
  (if is_windows p && negb (dry_run p) then
     match _command_buffer p with
     | None => set_self (set_buffer p (Some []))
     | Some _ => ret tt
     end
   else ret tt) ;;
  command ("SIZE " ^^ str (width_mm config) ^^ " mm," ^^ str (height_mm config) ^^ " mm") ;;
  command ("GAP " ^^ str (gap_mm config) ^^ " mm,0 mm") ;;
  command "CODEPAGE UTF-8" ;;
  command ("DIRECTION " ^^ str (orientation config)) ;;
  command "CLS".

(** The win32print calls of a job (open, start document and page, write,
    end page and document, close) are one [SpoolJob] event when the
    spooler accepts the job; when one of them raises, the buffer is left
    as it is and the error is wrapped in a new exception. *)
Definition _flush_commands : TP unit :=
  p <- get_self ;;
  match _command_buffer p with
  | None => ret tt
  | Some [] => ret tt
  | Some buf =>
      fun e =>
        match spooler_error e with
        | None =>
            (emit (SpoolJob (printer_path p) (encode_utf8 (String.concat "" buf))) ;;
             set_self (set_buffer p (Some []))) e
        | Some msg =>
            raise (Exception ("Failed to send data to Windows printer: " ^^ msg)) e
        end
  end.

(** The f-string of a [TEXT] line of [print_barcode]. *)
Definition text_line (x y size : Z) (text : string) : string :=
  "TEXT " ^^ str x ^^ "," ^^ str y ^^ "," ^^ DQ ^^ "0" ^^ DQ ^^ ",0,"
    ^^ str size ^^ "," ^^ str size ^^ ",2," ^^ DQ ^^ text ^^ DQ.

(** The f-string of the [BARCODE] line of [print_barcode]. *)
Definition barcode_line (x y height narrow : Z) (data : string) : string :=
  "BARCODE " ^^ str x ^^ "," ^^ str y ^^ "," ^^ DQ ^^ "128" ^^ DQ ^^ ","
    ^^ str height ^^ ",1,0," ^^ str narrow ^^ ",2," ^^ DQ ^^ data ^^ DQ.

Definition print_barcode (fuel : nat) (config : BarcodeConfig) : TP unit :=
  wait_printer fuel ;;
  setup_page config ;;
  let width_dots := width_mm config * DOTS_MM in
  let height_dots := height_mm config * DOTS_MM in
  let x_center := width_dots / 2 in
  let y_pos := 10 in
  y_pos <- (if truthy (top_text config) then
              command (text_line x_center y_pos (font_size config) (top_text config)) ;;
              ret (y_pos + (font_size config + 10))
            else ret y_pos) ;;
  y_pos <- (if truthy (barcode_data config) then
              let barcode_height_dots := barcode_height config * DOTS_MM in
              command (barcode_line x_center y_pos barcode_height_dots
                         (barcode_width config) (barcode_data config)) ;;
              ret (y_pos + (barcode_height_dots + 20))
            else ret y_pos) ;;
  (if truthy (bottom_text config) then
     command (text_line x_center y_pos (font_size config) (bottom_text config))
   else ret tt) ;;
  command ("PRINT 1," ^^ str (num_copies config)) ;;
  p <- get_self ;;
  if is_windows p && negb (dry_run p) then
    match _command_buffer p with
    | Some _ => _flush_commands
    | None => ret tt
    end
  else ret tt.

(** [len(s)]: the number of code points, which in the UTF-8 encoding
    is the number of bytes that are not continuation bytes (those from
    128 to 191). *)
Definition is_continuation (c : ascii) : bool :=
  let n := nat_of_ascii c in (128 <=? n)%nat && (n <? 192)%nat.

Fixpoint py_len (s : string) : nat :=
  match s with
  | EmptyString => O
  | String c s' => if is_continuation c then py_len s' else S (py_len s')
  end.

(** [s * n]: [n] copies of [s], none when [n] is negative. *)
Definition str_mul (s : string) (n : Z) : string :=
  String.concat EmptyString (repeat s (Z.to_nat n)).

(** A state with nothing done yet. *)
Definition fresh {O} (o : O) : state O := mkState o [] 0%nat.

(** *** Construction and release of a [ThermalPrinter] *)

(** The host a printer object is constructed on: the platform, whether
    [import win32print] fails, and the text of the error [os.open] raises
    for a path, if it does. *)
Record host : Type := mkHost {
  windows : bool;
  win32print_missing : bool;
  device_open_error : string -> option string
}.

(** [printer_path.upper().startswith('COM')]. No character other than
    the six letters c, o, m, C, O, M has an upper case containing C, O or
    M, so the test is on the first three bytes. *)
Definition is_com_path (printer_path : string) : bool :=
  match printer_path with
  | String a (String b (String c _)) =>
      (Ascii.eqb a "c" || Ascii.eqb a "C")
      && (Ascii.eqb b "o" || Ascii.eqb b "O")
      && (Ascii.eqb c "m" || Ascii.eqb c "M")
  | _ => false
  end.

(** [ThermalPrinter.__init__]: the object, or the exception that wraps
    whatever went wrong while opening. The descriptor held on the
    streaming transport is not represented. *)
Definition ThermalPrinter_init (h : host) (printer_path : string) (dry_run : bool)
  : exn + ThermalPrinter :=
  let obj := mkPrinter printer_path dry_run (windows h) None in
  let failed (msg : string) : exn + ThermalPrinter :=
    inl (Exception ("Cannot open printer at " ^^ printer_path ^^ ": " ^^ msg)) in
  if negb dry_run then
    if windows h then
      if is_com_path printer_path then
        failed "COM port access requires pyserial. Use printer name instead."%string
      else if win32print_missing h then
        failed "For Windows printing, install pywin32: pip install pywin32"%string
      else inr obj
    else
      match device_open_error h printer_path with
      | Some msg => failed msg
      | None => inr obj
      end
  else inr obj.


(** Several labels printed in a row on one printer object. *)
Definition print_labels (fuel : nat) (configs : list BarcodeConfig) : TP unit :=
  for_each configs (fun config => print_barcode fuel config).

(** ** [print-badge.py] *)

Module PrintBadge.

Definition DOTS_MM : Z := 8.
Definition WIDTH_MM : Z := 100.
Definition HEIGHT_MM : Z := 35.
Definition GAP_MM : Z := 2.

Definition FONT : string := "0".
Definition FONT_WIDTH : Z := 36.
Definition FONT_HEIGHT : Z := 36.
Definition FONT_X_MULT : Z := FONT_WIDTH.
Definition FONT_Y_MULT : Z := FONT_HEIGHT.

Definition BADGE_GAP_MM : Z := 5.
Definition LINES_GAP_MM : Z := 1.

(** The parsed command line. *)
Record Params : Type := mkParams {
  dry_run : bool;
  yes : bool;
  num : Z;
  orient : Z;
  line1 : string;
  line2 : string
}.

Module Badge.

Definition width : Z := WIDTH_MM * DOTS_MM.
Definition x_center : Z := width / 2.
Definition y_first_line : Z := BADGE_GAP_MM * DOTS_MM.
Definition line_height : Z := (FONT_HEIGHT / 3 + LINES_GAP_MM) * DOTS_MM.
Definition y_second_line : Z := y_first_line + line_height.

Record t : Type := mk {
  line1 : string;
  line2 : string
}.

(** [Badge.__init__]. *)
Definition init (params : Params) : t :=
  {| line1 := PrintBadge.line1 params; line2 := PrintBadge.line2 params |}.

(** The format string of a badge line, filled in. *)
Definition text_format (x y : Z) (font : string) (font_x_mult font_y_mult : Z)
    (text : string) : string :=
  "TEXT " ^^ str x ^^ "," ^^ str y ^^ "," ^^ DQ ^^ font ^^ DQ ^^ ",0,"
    ^^ str font_x_mult ^^ "," ^^ str font_y_mult ^^ ",2," ^^ DQ ^^ text ^^ DQ.

(** [Badge.print]: the list of commands of the badge body. *)
Definition print (self : t) : list string :=
  ["CLS"%string;
   text_format x_center y_first_line FONT FONT_X_MULT FONT_Y_MULT (line1 self);
   text_format x_center y_second_line FONT FONT_X_MULT FONT_Y_MULT (line2 self)].

End Badge.

Module Printer.

Record t : Type := mk {
  params : Params;
  badge : Badge.t
}.

Definition P (A : Type) : Type := M t A.

Definition printer_status : P string :=
  os_write STATUS_PROBE ;;
  status <- os_read 8 ;;
  lift (decode_ascii (slice 1 5 status)).

Definition can_print : P bool :=
  tok <- printer_status ;;
  ret (fullmatch STATUS_RE tok).

(** The inner [while] loop of [wait_printer]; [fuel] bounds the number
    of evaluations of its condition. *)
Fixpoint wait_loop (fuel : nat) : P unit :=
  match fuel with
  | O => out_of_fuel
  | S fuel' =>
      ready <- can_print ;;
      if negb ready then
        (print_stderr "." "" ;; time_sleep 1 ;; wait_loop fuel')
      else ret tt
  end.

Definition wait_printer (fuel : nat) : P unit :=
  self <- get_self ;;
  if dry_run (params self) then ret tt
  else
    ready <- can_print ;;
    if negb ready then
      (print_stderr "...waiting printer..." "" ;;
       time_sleep (1 # 2) ;;
       wait_loop fuel ;;
       print_stderr "" NL)
    else ret tt.

Definition command (cmd : string) : P unit :=
  self <- get_self ;;
  if dry_run (params self) then print_stdout cmd
  else
    os_write (encode_utf8 cmd) ;;
    os_write (encode_utf8 CRLF).

Definition page_setup : P unit :=
  self <- get_self ;;
  command ("SIZE " ^^ str WIDTH_MM ^^ " mm," ^^ str HEIGHT_MM ^^ " mm") ;;
  command ("GAP " ^^ str GAP_MM ^^ " mm,0 mm") ;;
  command "CODEPAGE UTF-8" ;;
  command ("DIRECTION " ^^ str (orient (params self))).

Definition print (fuel : nat) : P unit :=
  wait_printer fuel ;;
  page_setup ;;
  self <- get_self ;;
  for_each (Badge.print (badge self)) (fun cmd => command cmd) ;;
  command ("PRINT 1," ^^ str (num (params self))) ;;
  print_stdout (Badge.line1 (badge self) ^^ " " ^^ Badge.line2 (badge self)).

End Printer.

(** The objects [main] builds from the parsed command line. *)
Definition make_printer (params : Params) : Printer.t :=
  Printer.mk params (Badge.init params).


Definition PREVIEW_WIDTH : Z := 16.

(** [re.sub(r'[\n\r]+', '', s)]: every run of line feeds and carriage
    returns is deleted. *)
Fixpoint strip_newlines (s : string) : string :=
  match s with
  | EmptyString => EmptyString
  | String c s' =>
      if Ascii.eqb c LF || Ascii.eqb c CR then strip_newlines s'
      else String c (strip_newlines s')
  end.

(** What the command line can meet outside the printer: the line typed
    at the prompt ([None] at end of input) and the text of the error
    [os.open] raises on the device node, if it does. *)
Record cli_host : Type := mkCliHost {
  stdin_reply : option string;
  open_error : option string
}.

(** The events of a run of [main]: those of the printing layer, and the
    prompt with what was read in answer. *)
Inductive cli_event : Type :=
| Io (ev : event)
| Input (prompt : string) (reply : option string).

Module Confirm.

(** The line [print_line_centered] prints. *)
Definition print_line_centered (line : string) : string :=
  let spaces := (PREVIEW_WIDTH - Z.of_nat (py_len line)) / 2 in
  str_mul " " spaces ^^ line.

(** The body of the [for i in range(0, num)] loop, [n] times. *)
Fixpoint preview (n : nat) (params : Params) : list string :=
  match n with
  | O => []
  | S n' =>
      print_line_centered (line1 params) :: print_line_centered (line2 params)
        :: preview n' params
  end.

(** [Confirm.confirm]: the events, then the answer or the exception of
    [input] at end of input. *)
Definition confirm (params : Params) (h : cli_host) : list cli_event * (exn + bool) :=
  let shown :=
    map (fun l => Io (Stdout l))
      (str_mul "-" PREVIEW_WIDTH
         :: preview (Z.to_nat (num params)) params ++ [str_mul "-" PREVIEW_WIDTH])
    ++ [Input "Print? [Y/n] " (stdin_reply h)] in
  match stdin_reply h with
  | None => (shown, inl (Exception "EOF when reading a line"))
  | Some reply =>
      (shown ++ [Io (Stdout EmptyString)],
       inr (if (0 <? py_len reply)%nat
               && match reply with
                  | String c _ => Ascii.eqb c "y" || Ascii.eqb c "Y"
                  | EmptyString => false
                  end
            then true
            else if String.eqb reply EmptyString then true
            else false))
  end.

End Confirm.

(** [main], from the parsed arguments on. [describe] gives the text
    [print(e)] writes for an exception. An exception raised anywhere is
    caught and reported on the error stream; [None] is a run that does
    not return within the fuel. *)
Definition main (describe : exn -> string) (h : cli_host) (e : env) (fuel : nat)
    (args : Params) : option (list cli_event) :=
  let params :=
    mkParams (dry_run args) (yes args) (num args) (orient args)
      (strip_newlines (line1 args)) (strip_newlines (line2 args)) in
  let report (tr : list cli_event) (x : exn) :=
    Some (tr ++ [Io (Stderr (describe x ^^ NL))]) in
  let print_badge (tr : list cli_event) :=
    match (if dry_run params then None else open_error h) with
    | Some msg => report tr (Exception msg)
    | None =>
        match Printer.print fuel e (fresh (make_printer params)) with
        | Ok _ s => Some (tr ++ map Io (trace s))
        | Raise x s => report (tr ++ map Io (trace s)) x
        | OutOfFuel => None
        end
    end in
  if yes params then print_badge []
  else
    match Confirm.confirm params h with
    | (tr, inl x) => report tr x
    | (tr, inr true) => print_badge tr
    | (tr, inr false) => Some tr
    end.

End PrintBadge.

(** ** Observations on traces *)

Definition stdout_lines (tr : list event) : list string :=
  flat_map (fun ev => match ev with Stdout l => [l] | _ => [] end) tr.

Definition sleeps (tr : list event) : list Q :=
  flat_map (fun ev => match ev with Sleep q => [q] | _ => [] end) tr.

Definition device_reads (tr : list event) : list (list byte) :=
  flat_map (fun ev => match ev with DevRead _ d => [d] | _ => [] end) tr.

Definition device_writes (tr : list event) : list (list byte) :=
  flat_map (fun ev => match ev with DevWrite d => [d] | _ => [] end) tr.

(** An event that reaches the printer or its driver. *)
Definition is_device_io (ev : event) : bool :=
  match ev with
  | DevWrite _ | DevRead _ _ | SpoolJob _ _ => true
  | _ => false
  end.

Definition silent_env : env := mkEnv (fun _ => []) None.

(** A printer object as [ThermalPrinter.__init__] leaves it. *)
Definition new_printer (path : string) (dry windows : bool) : ThermalPrinter :=
  mkPrinter path dry windows None.

(** The command sequence of a label: the lines the dry-run transport
    logs for it. *)
Definition command_sequence (config : BarcodeConfig) : list string :=
  match print_barcode 0 config silent_env (fresh (new_printer "" true false)) with
  | Ok _ s => stdout_lines (trace s)
  | _ => []
  end.

(** How each transport carries a command sequence. *)
Definition streamed (cmds : list string) : list event :=
  flat_map (fun c => [DevWrite (encode_utf8 c); DevWrite (encode_utf8 CRLF)]) cmds.

Definition spooled (path : string) (cmds : list string) : list event :=
  [SpoolJob path (encode_utf8 (String.concat "" (map (fun c => c ^^ CRLF) cmds)))].

Definition preamble (config : BarcodeConfig) : list string :=
  ["SIZE " ^^ str (width_mm config) ^^ " mm," ^^ str (height_mm config) ^^ " mm";
   "GAP " ^^ str (gap_mm config) ^^ " mm,0 mm";
   "CODEPAGE UTF-8";
   "DIRECTION " ^^ str (orientation config);
   "CLS"]%string.

Definition print_line (config : BarcodeConfig) : string :=
  "PRINT 1," ^^ str (num_copies config).

(** The y offsets at which the elements of a label are drawn, when
    present: after a text 10 dots are left, after the barcode 20. *)
Definition y_top : Z := 10.
Definition y_barcode (config : BarcodeConfig) : Z :=
  if truthy (top_text config) then y_top + (font_size config + 10) else y_top.
Definition y_bottom (config : BarcodeConfig) : Z :=
  if truthy (barcode_data config)
  then y_barcode config + (barcode_height config * DOTS_MM + 20)
  else y_barcode config.

Definition x_center (config : BarcodeConfig) : Z := width_mm config * DOTS_MM / 2.

Definition top_lines (config : BarcodeConfig) : list string :=
  if truthy (top_text config)
  then [text_line (x_center config) y_top (font_size config) (top_text config)]
  else [].

Definition barcode_lines (config : BarcodeConfig) : list string :=
  if truthy (barcode_data config)
  then [barcode_line (x_center config) (y_barcode config)
          (barcode_height config * DOTS_MM) (barcode_width config) (barcode_data config)]
  else [].

Definition bottom_lines (config : BarcodeConfig) : list string :=
  if truthy (bottom_text config)
  then [text_line (x_center config) (y_bottom config) (font_size config) (bottom_text config)]
  else [].

(** *** The readiness handshake, observed *)

(** The characters accepted in first position of a status token. *)
Definition ACCEPTED : list ascii := ["@"; "B"; "C"; "F"; "P"; "W"]%char.

(** A status token as the specification accepts it: one accepted
    character followed by three idle markers. *)
Definition accepted_token (tok : string) : Prop :=
  exists c, In c ACCEPTED /\ tok = String c "@@@".

(** A printer object on the streaming transport (a device node). *)
Definition streaming (p : ThermalPrinter) : Prop :=
  dry_run p = false /\ is_windows p = false.

(** What a poll of the streaming device amounts to, given the bytes the
    device holds: ready, not ready, or a decoding error. *)
Definition poll_answer (reply : list byte) : exn + bool :=
  match decode_ascii (slice 1 5 (firstn 8 reply)) with
  | inr tok => inr (fullmatch STATUS_RE tok)
  | inl x => inl x
  end.

(** The events of one poll. *)
Definition poll_events (reply : list byte) : list event :=
  [DevWrite STATUS_PROBE; DevRead 8 (firstn 8 reply)].

(** The state after one poll. *)
Definition polled (e : env) (s : state ThermalPrinter) : state ThermalPrinter :=
  mkState (self s) (trace s ++ poll_events (device e (reads s))) (S (reads s)).

(** [n] unsuccessful rounds of the inner loop, from read number [k]:
    poll, then sleep one time unit. *)
Fixpoint retries (e : env) (k n : nat) : list event :=
  match n with
  | O => []
  | S n' => poll_events (device e k) ++ Sleep 1 :: retries e (S k) n'
  end.

(** The events of the handshake: probes, reads of 8 bytes, sleeps and
    the notice on the error stream. *)
Definition handshake_event (ev : event) : Prop :=
  match ev with
  | DevWrite d => d = STATUS_PROBE
  | DevRead n _ => n = 8%nat
  | Sleep _ | Stderr _ => True
  | Stdout _ | SpoolJob _ _ => False
  end.

Definition total_sleep (tr : list event) : Q :=
  fold_right Qplus 0%Q (sleeps tr).

(** *** Transports *)

Definition buffer_clean (p : ThermalPrinter) : Prop :=
  _command_buffer p = None \/ _command_buffer p = Some [].

(** The events by which the transport of [p] carries a command
    sequence. *)
Definition carried_by (p : ThermalPrinter) (cmds : list string) : list event :=
  if dry_run p then map Stdout cmds
  else if is_windows p then spooled (printer_path p) cmds
  else streamed cmds.

(** *** Kinds of command *)

Fixpoint starts_with (p s : string) : bool :=
  match p with
  | EmptyString => true
  | String a p' =>
      match s with
      | EmptyString => false
      | String b s' => Ascii.eqb a b && starts_with p' s'
      end
  end.

Definition is_text (c : string) : bool := starts_with "TEXT " c.
Definition is_barcode (c : string) : bool := starts_with "BARCODE " c.
Definition is_drawing (c : string) : bool := is_text c || is_barcode c.

(** A [CLS] occurs with no drawing command before it. *)
Definition cls_before_drawing (cmds : list string) : Prop :=
  exists pre post,
    cmds = pre ++ "CLS"%string :: post /\ Forall (fun c => is_drawing c = false) pre.

(** *** The layout in the words of the specification

    Placement starts at the top margin; every element present consumes
    its rendered height plus the gap that follows its kind. *)
Definition spec_layout (margin gap_after_text gap_after_barcode : Z)
    (config : BarcodeConfig) : list string :=
  let x := width_mm config * DOTS_MM / 2 in
  let y0 := margin in
  let y1 := if truthy (top_text config)
            then y0 + (font_size config + gap_after_text) else y0 in
  let y2 := if truthy (barcode_data config)
            then y1 + (barcode_height config * DOTS_MM + gap_after_barcode) else y1 in
  preamble config
  ++ (if truthy (top_text config)
      then [text_line x y0 (font_size config) (top_text config)] else [])
  ++ (if truthy (barcode_data config)
      then [barcode_line x y1 (barcode_height config * DOTS_MM)
              (barcode_width config) (barcode_data config)] else [])
  ++ (if truthy (bottom_text config)
      then [text_line x y2 (font_size config) (bottom_text config)] else [])
  ++ [print_line config].

(** *** Fixtures *)

Definition lp0 : state ThermalPrinter := fresh (new_printer "/dev/usb/lp0" false false).
Definition dry0 : state ThermalPrinter := fresh (new_printer "/dev/usb/lp0" true false).

(** Replies of the device: STX, four status bytes, ETX, CR, LF. *)
Definition reply_ready : list byte := [x02; x40; x40; x40; x40; x03; x0d; x0a].
Definition reply_busy : list byte := [x02; x45; x40; x40; x40; x03; x0d; x0a].
Definition reply_abcd : list byte := [x02; x40; x42; x43; x44; x03; x0d; x0a].
Definition reply_high : list byte := [x02; xff; x40; x40; x40; x03; x0d; x0a].
Definition reply_short : list byte := [x02; x40; x40].
Definition reply_five : list byte := [x02; x40; x40; x40; x40].

(** A device that is busy for its first [n] reads and ready afterwards. *)
Definition busy_then_ready (n : nat) : env :=
  mkEnv (fun k => if (k <? n)%nat then reply_busy else reply_ready) None.

Definition always (reply : list byte) : env := mkEnv (fun _ => reply) None.

(** A label with all three elements. *)
Definition full_label : BarcodeConfig :=
  {| width_mm := 100; height_mm := 50; gap_mm := 2;
     barcode_type := "code128"; barcode_height := 15; barcode_width := 2;
     font_size := 24; top_text := "PRODUCT"; bottom_text := "Made in USA";
     barcode_data := "123456789012"; orientation := 1; num_copies := 1 |}.

(** A label with no width and a negative height. *)
Definition flat_label : BarcodeConfig :=
  {| width_mm := 0; height_mm := -5; gap_mm := 2;
     barcode_type := "code128"; barcode_height := 15; barcode_width := 2;
     font_size := 24; top_text := "PRODUCT"; bottom_text := "";
     barcode_data := ""; orientation := 1; num_copies := 1 |}.

(** A label with a bottom text only. *)
Definition bottom_only : BarcodeConfig :=
  {| width_mm := 100; height_mm := 50; gap_mm := 2;
     barcode_type := "code128"; barcode_height := 15; barcode_width := 2;
     font_size := 24; top_text := ""; bottom_text := "Made in USA";
     barcode_data := ""; orientation := 1; num_copies := 1 |}.

(** *** Decimal numerals *)

Fixpoint has_comma (s : string) : bool :=
  match s with
  | EmptyString => false
  | String c s' => Ascii.eqb c "," || has_comma s'
  end.

(** *** The badge path, observed *)

(** The commands of one badge: page setup, badge body, print. *)
Definition badge_sequence (pr : PrintBadge.Printer.t) : list string :=
  ["SIZE " ^^ str PrintBadge.WIDTH_MM ^^ " mm," ^^ str PrintBadge.HEIGHT_MM ^^ " mm";
   "GAP " ^^ str PrintBadge.GAP_MM ^^ " mm,0 mm";
   "CODEPAGE UTF-8";
   "DIRECTION " ^^ str (PrintBadge.orient (PrintBadge.Printer.params pr))]%string
  ++ PrintBadge.Badge.print (PrintBadge.Printer.badge pr)
  ++ ["PRINT 1," ^^ str (PrintBadge.num (PrintBadge.Printer.params pr))].

(** The line [Printer.print] writes on standard output when done. *)
Definition badge_summary (pr : PrintBadge.Printer.t) : string :=
  PrintBadge.Badge.line1 (PrintBadge.Printer.badge pr) ^^ " "
    ^^ PrintBadge.Badge.line2 (PrintBadge.Printer.badge pr).

(** The state after one poll, for the badge printer. *)
Definition badge_polled (e : env) (s : state PrintBadge.Printer.t) : state PrintBadge.Printer.t :=
  mkState (self s) (trace s ++ poll_events (device e (reads s))) (S (reads s)).

(** A badge with two empty lines, on the dry-run transport and on the
    device. *)
Definition blank_badge (dry : bool) : PrintBadge.Printer.t :=
  PrintBadge.make_printer (PrintBadge.mkParams dry true 1 1 "" "").

(** *** Observations for the rest of the code *)

(** The lines waiting in the command buffer of a printer object. *)
Definition pending (p : ThermalPrinter) : list string :=
  match _command_buffer p with
  | None => []
  | Some b => b
  end.

(** A printer object on the spooler transport. *)
Definition spooling (p : ThermalPrinter) : Prop :=
  dry_run p = false /\ is_windows p = true.

(** A command as it goes into the buffer and onto the wire. *)
Definition wire_line (c : string) : string := c ^^ CRLF.

(** The bytes of one spooler job holding the given buffered lines. *)
Definition job_payload (lines : list string) : list byte :=
  encode_utf8 (String.concat EmptyString lines).


(** An event of [main] that reaches the printer. *)
Definition cli_device_io (ev : PrintBadge.cli_event) : bool :=
  match ev with
  | PrintBadge.Io ev' => is_device_io ev'
  | PrintBadge.Input _ _ => false
  end.

(** [n] unsuccessful rounds of the inner loop of the badge printer, from
    read number [k]: poll, a dot on the error stream, sleep one time
    unit. *)
Fixpoint badge_retries (e : env) (k n : nat) : list event :=
  match n with
  | O => []
  | S n' => poll_events (device e k) ++ Stderr "." :: Sleep 1 :: badge_retries e (S k) n'
  end.

(** A reply to the prompt that lets the badge be printed: nothing, or
    something beginning with y or Y. *)
Definition accepted_reply (reply : string) : bool :=
  match reply with
  | EmptyString => true
  | String c _ => Ascii.eqb c "y" || Ascii.eqb c "Y"
  end.

(** The arguments of [main] once the two lines are stripped. *)
Definition stripped (args : PrintBadge.Params) : PrintBadge.Params :=
  PrintBadge.mkParams (PrintBadge.dry_run args) (PrintBadge.yes args) (PrintBadge.num args)
    (PrintBadge.orient args)
    (PrintBadge.strip_newlines (PrintBadge.line1 args))
    (PrintBadge.strip_newlines (PrintBadge.line2 args)).

(** What [Confirm.confirm] shows before it reads the reply. *)
Definition confirm_shown (params : PrintBadge.Params) (h : PrintBadge.cli_host)
  : list PrintBadge.cli_event :=
  map (fun l => PrintBadge.Io (Stdout l))
    (str_mul "-" PrintBadge.PREVIEW_WIDTH
       :: PrintBadge.Confirm.preview (Z.to_nat (PrintBadge.num params)) params
       ++ [str_mul "-" PrintBadge.PREVIEW_WIDTH])
  ++ [PrintBadge.Input "Print? [Y/n] " (PrintBadge.stdin_reply h)].

(** A printer object on the spooler transport, as constructed. *)
Definition spool0 : state ThermalPrinter := fresh (new_printer "Thermal Printer" false true).


(** A Windows host with the spooler bindings, a Linux host whose device
    node opens. *)
Definition windows_host : host := mkHost true false (fun _ => None).
Definition linux_host : host := mkHost false false (fun _ => None).

(** ** Basic facts *)

Lemma command_sequence_eq (config : BarcodeConfig) :
  command_sequence config =
  preamble config ++ top_lines config ++ barcode_lines config
    ++ bottom_lines config ++ [print_line config].
Proof.
  unfold command_sequence, top_lines, barcode_lines, bottom_lines, y_bottom, y_barcode.
  destruct config as [w h g bt bh bw fs top bottom data o n]; simpl.
  destruct top, data, bottom; reflexivity.
Qed.

Ltac flatten_trace := repeat rewrite <- app_assoc; cbn [app].

Ltac exec :=
  unfold print_barcode, wait_printer, setup_page, _flush_commands, command, can_print,
    printer_status, bind, get_self, set_self, print_stdout, print_stderr, time_sleep, os_write,
    os_read, emit, ret, raise, lift;
  simpl.

Section Runs.
Local Opaque Z.add Z.mul Z.div str String.append.

Lemma print_barcode_dry_run fuel config e s :
  dry_run (self s) = true ->
  print_barcode fuel config e s =
  Ok tt (mkState (self s) (trace s ++ map Stdout (command_sequence config)) (reads s)).
Proof.
  intros Hdry. rewrite command_sequence_eq.
  unfold preamble, top_lines, barcode_lines, bottom_lines, y_bottom, y_barcode,
    x_center, y_top, print_line.
  destruct s as [[path dry win buf] tr rd]; simpl in Hdry; subst dry.
  destruct config as [w h g bt bh bw fs top bottom data o n].
  destruct win, buf, top, data, bottom; exec; flatten_trace; reflexivity.
Qed.

(** One poll of a streaming device: the probe is written, up to 8 bytes
    are read, and bytes 1 to 4 are decoded and matched. *)
Lemma can_print_streaming e s :
  streaming (self s) ->
  can_print e s =
  match poll_answer (device e (reads s)) with
  | inr b => Ok b (polled e s)
  | inl x => Raise x (polled e s)
  end.
Proof.
  intros [Hdry Hwin]. unfold poll_answer, polled, poll_events.
  destruct s as [[path dry win buf] tr rd]; simpl in Hdry, Hwin; subst dry win.
  exec. flatten_trace.
  destruct (decode_ascii _); reflexivity.
Qed.

Lemma can_print_self e s b s' : can_print e s = Ok b s' -> self s' = self s.
Proof.
  destruct (dry_run (self s)) eqn:Hdry; [|destruct (is_windows (self s)) eqn:Hwin].
  - unfold can_print, bind, get_self, ret. rewrite Hdry. now intros [= _ <-].
  - unfold can_print, bind, get_self, ret. rewrite Hdry, Hwin. now intros [= _ <-].
  - rewrite can_print_streaming by (split; assumption).
    destruct (poll_answer _); [discriminate|]. now intros [= _ <-].
Qed.

Lemma wait_loop_self fuel : forall e s u s', wait_loop fuel e s = Ok u s' -> self s' = self s.
Proof.
  induction fuel as [|fuel IH]; intros e s u s'; [discriminate|].
  cbn [wait_loop]. unfold bind at 1.
  destruct (can_print e s) as [b s1| |] eqn:Hc; try discriminate.
  apply can_print_self in Hc.
  destruct b; cbn [negb].
  - unfold ret. intros [= _ <-]. exact Hc.
  - unfold bind, time_sleep, emit. intros H. apply IH in H. cbn in H. congruence.
Qed.

Lemma wait_printer_self fuel e s u s' : wait_printer fuel e s = Ok u s' -> self s' = self s.
Proof.
  unfold wait_printer. unfold bind at 1. unfold get_self.
  destruct (dry_run (self s)).
  - unfold ret. now intros [= _ <-].
  - unfold bind at 1.
    destruct (can_print e s) as [b s1| |] eqn:Hc; try discriminate.
    apply can_print_self in Hc.
    destruct b; cbn [negb].
    + unfold ret. intros [= _ <-]. exact Hc.
    + unfold bind, print_stderr, time_sleep, emit. intros H.
      apply wait_loop_self in H. cbn in H. congruence.
Qed.

(** The streaming transport: once the wait is over, every command is
    written to the device followed by CR LF. *)
Lemma print_barcode_streaming fuel config e s :
  dry_run (self s) = false -> is_windows (self s) = false ->
  print_barcode fuel config e s =
  match wait_printer fuel e s with
  | Ok _ s1 =>
      Ok tt (mkState (self s1) (trace s1 ++ streamed (command_sequence config)) (reads s1))
  | Raise x s1 => Raise x s1
  | OutOfFuel => OutOfFuel
  end.
Proof.
  intros Hdry Hwin. unfold print_barcode. unfold bind at 1.
  destruct (wait_printer fuel e s) as [[] s1| |] eqn:W; try reflexivity.
  apply wait_printer_self in W. rewrite <- W in Hdry, Hwin. clear W.
  rewrite command_sequence_eq.
  unfold preamble, top_lines, barcode_lines, bottom_lines, y_bottom, y_barcode,
    x_center, y_top, print_line, streamed.
  destruct s1 as [[path dry win buf] tr rd]; simpl in Hdry, Hwin; subst dry win.
  destruct config as [w h g bt bh bw fs top bottom data o n].
  destruct top, data, bottom; exec; flatten_trace; reflexivity.
Qed.

(** The spooler transport, from an absent or empty buffer: nothing is
    polled, and the whole sequence leaves as one job. *)
Lemma print_barcode_spooler fuel config e s :
  dry_run (self s) = false -> is_windows (self s) = true ->
  _command_buffer (self s) = None \/ _command_buffer (self s) = Some [] ->
  print_barcode fuel config e s =
  match spooler_error e with
  | None =>
      Ok tt (mkState (set_buffer (self s) (Some []))
               (trace s ++ spooled (printer_path (self s)) (command_sequence config))
               (reads s))
  | Some msg =>
      Raise (Exception ("Failed to send data to Windows printer: " ^^ msg))
        (mkState (set_buffer (self s)
                    (Some (map (fun c => c ^^ CRLF) (command_sequence config))))
           (trace s) (reads s))
  end.
Proof.
  intros Hdry Hwin Hbuf.
  rewrite command_sequence_eq.
  unfold preamble, top_lines, barcode_lines, bottom_lines, y_bottom, y_barcode,
    x_center, y_top, print_line, spooled.
  destruct s as [[path dry win buf] tr rd]; simpl in Hdry, Hwin, Hbuf; subst dry win.
  destruct config as [w h g bt bh bw fs top bottom data o n].
  destruct e as [dev err].
  destruct Hbuf; subst buf; destruct err, top, data, bottom; exec; reflexivity.
Qed.

(** *** The polling loop on a streaming device *)

Lemma wait_loop_ready_after n : forall fuel e s,
  streaming (self s) ->
  (forall i, (i < n)%nat -> poll_answer (device e (reads s + i)) = inr false) ->
  poll_answer (device e (reads s + n)) = inr true ->
  (n < fuel)%nat ->
  wait_loop fuel e s =
  Ok tt (mkState (self s)
           (trace s ++ retries e (reads s) n ++ poll_events (device e (reads s + n)))
           (reads s + S n)).
Proof.
  induction n as [|n IH]; intros fuel e s Hs Hbusy Hready Hfuel;
    (destruct fuel as [|fuel]; [lia|]);
    cbn [wait_loop]; unfold bind at 1; rewrite can_print_streaming by assumption.
  - rewrite Nat.add_0_r in Hready. rewrite Hready. cbn [negb retries app].
    unfold ret, polled. now rewrite Nat.add_0_r, Nat.add_1_r.
  - pose proof (Hbusy 0%nat ltac:(lia)) as H0. rewrite Nat.add_0_r in H0. rewrite H0.
    cbn [negb]. unfold bind at 1. unfold time_sleep, emit.
    rewrite IH; cbn [self trace reads polled]; try assumption; try lia.
    + replace (S (reads s) + n)%nat with (reads s + S n)%nat by lia.
      replace (S (reads s) + S n)%nat with (reads s + S (S n))%nat by lia.
      cbn [retries]. rewrite <- !app_assoc. reflexivity.
    + intros i Hi. replace (S (reads s) + i)%nat with (reads s + S i)%nat by lia.
      apply Hbusy. lia.
    + now replace (S (reads s) + n)%nat with (reads s + S n)%nat by lia.
Qed.

Lemma wait_loop_never_ready fuel : forall e s,
  streaming (self s) ->
  (forall i, poll_answer (device e (reads s + i)) = inr false) ->
  wait_loop fuel e s = OutOfFuel.
Proof.
  induction fuel as [|fuel IH]; intros e s Hs Hbusy; [reflexivity|].
  cbn [wait_loop]. unfold bind at 1. rewrite can_print_streaming by assumption.
  pose proof (Hbusy 0%nat) as H0. rewrite Nat.add_0_r in H0. rewrite H0.
  cbn [negb]. unfold bind at 1. unfold time_sleep, emit.
  apply IH; cbn [self trace reads polled]; [assumption|].
  intros i. replace (S (reads s) + i)%nat with (reads s + S i)%nat by lia. apply Hbusy.
Qed.

Lemma wait_printer_ready_first fuel e s :
  streaming (self s) ->
  poll_answer (device e (reads s)) = inr true ->
  wait_printer fuel e s = Ok tt (polled e s).
Proof.
  intros Hs Hready. unfold wait_printer. unfold bind at 1. unfold get_self.
  destruct Hs as [Hdry Hwin]. rewrite Hdry. unfold bind at 1.
  rewrite can_print_streaming by (split; assumption). now rewrite Hready.
Qed.

Lemma wait_printer_raises fuel e s x :
  streaming (self s) ->
  poll_answer (device e (reads s)) = inl x ->
  wait_printer fuel e s = Raise x (polled e s).
Proof.
  intros Hs Hx. unfold wait_printer. unfold bind at 1. unfold get_self.
  destruct Hs as [Hdry Hwin]. rewrite Hdry. unfold bind at 1.
  rewrite can_print_streaming by (split; assumption). now rewrite Hx.
Qed.

(** After a first unsuccessful poll: the notice, half a time unit of
    sleep, then the inner loop. *)
Lemma wait_printer_busy_first fuel e s :
  streaming (self s) ->
  poll_answer (device e (reads s)) = inr false ->
  wait_printer fuel e s =
  wait_loop fuel e
    (mkState (self s)
       (trace s ++ poll_events (device e (reads s))
          ++ [Stderr ("Waiting for printer..." ^^ NL); Sleep (1 # 2)])
       (S (reads s))).
Proof.
  intros Hs Hbusy. unfold wait_printer. unfold bind at 1. unfold get_self.
  destruct Hs as [Hdry Hwin]. rewrite Hdry. unfold bind at 1.
  rewrite can_print_streaming by (split; assumption). rewrite Hbusy.
  cbn [negb]. unfold bind, print_stderr, time_sleep, emit, polled.
  cbn [self trace reads]. now rewrite <- !app_assoc.
Qed.

Lemma wait_printer_ready_after n fuel e s :
  streaming (self s) ->
  (forall i, (i <= n)%nat -> poll_answer (device e (reads s + i)) = inr false) ->
  poll_answer (device e (reads s + S n)) = inr true ->
  (n < fuel)%nat ->
  wait_printer fuel e s =
  Ok tt (mkState (self s)
           (trace s ++ poll_events (device e (reads s))
              ++ [Stderr ("Waiting for printer..." ^^ NL); Sleep (1 # 2)]
              ++ retries e (S (reads s)) n
              ++ poll_events (device e (reads s + S n)))
           (reads s + S (S n))).
Proof.
  intros Hs Hbusy Hready Hfuel.
  rewrite wait_printer_busy_first; try assumption.
  2:{ specialize (Hbusy 0%nat ltac:(lia)). now rewrite Nat.add_0_r in Hbusy. }
  rewrite (wait_loop_ready_after n); cbn [self trace reads]; try assumption.
  - replace (S (reads s) + n)%nat with (reads s + S n)%nat by lia.
    replace (S (reads s) + S n)%nat with (reads s + S (S n))%nat by lia.
    rewrite <- !app_assoc. reflexivity.
  - intros i Hi.
    replace (S (reads s) + i)%nat with (reads s + S i)%nat by lia.
    apply Hbusy. lia.
  - now replace (S (reads s) + n)%nat with (reads s + S n)%nat by lia.
Qed.

Lemma wait_printer_never_ready fuel e s :
  streaming (self s) ->
  (forall i, poll_answer (device e (reads s + i)) = inr false) ->
  wait_printer fuel e s = OutOfFuel.
Proof.
  intros Hs Hbusy.
  rewrite wait_printer_busy_first; try assumption.
  2:{ specialize (Hbusy 0%nat). now rewrite Nat.add_0_r in Hbusy. }
  apply wait_loop_never_ready; cbn [self trace reads]; [assumption|].
  intros i. replace (S (reads s) + i)%nat with (reads s + S i)%nat by lia. apply Hbusy.
Qed.

(** *** The handshake leaves only handshake events *)

Lemma can_print_handshake e s b s' :
  can_print e s = Ok b s' ->
  exists hs, trace s' = trace s ++ hs /\ Forall handshake_event hs.
Proof.
  destruct (dry_run (self s)) eqn:Hdry; [|destruct (is_windows (self s)) eqn:Hwin].
  - unfold can_print, bind, get_self, ret. rewrite Hdry. intros [= _ <-].
    exists []. now rewrite app_nil_r.
  - unfold can_print, bind, get_self, ret. rewrite Hdry, Hwin. intros [= _ <-].
    exists []. now rewrite app_nil_r.
  - rewrite can_print_streaming by (split; assumption).
    destruct (poll_answer _); [discriminate|]. intros [= _ <-].
    exists (poll_events (device e (reads s))). split; [reflexivity|].
    repeat constructor.
Qed.

Lemma wait_loop_handshake fuel : forall e s u s',
  wait_loop fuel e s = Ok u s' ->
  exists hs, trace s' = trace s ++ hs /\ Forall handshake_event hs.
Proof.
  induction fuel as [|fuel IH]; intros e s u s'; [discriminate|].
  cbn [wait_loop]. unfold bind at 1.
  destruct (can_print e s) as [b s1| |] eqn:Hc; try discriminate.
  apply can_print_handshake in Hc. destruct Hc as (hs1 & E1 & F1).
  destruct b; cbn [negb].
  - unfold ret. intros [= _ <-]. now exists hs1.
  - unfold bind at 1. unfold time_sleep, emit. intros H.
    apply IH in H. destruct H as (hs2 & E2 & F2). cbn [trace] in E2.
    exists (hs1 ++ Sleep 1 :: hs2). split.
    + rewrite E2, E1, <- !app_assoc. reflexivity.
    + apply Forall_app. split; [assumption|]. constructor; [exact I|assumption].
Qed.

Lemma wait_printer_handshake fuel e s u s' :
  wait_printer fuel e s = Ok u s' ->
  exists hs, trace s' = trace s ++ hs /\ Forall handshake_event hs.
Proof.
  unfold wait_printer. unfold bind at 1. unfold get_self.
  destruct (dry_run (self s)).
  - unfold ret. intros [= _ <-]. exists []. now rewrite app_nil_r.
  - unfold bind at 1.
    destruct (can_print e s) as [b s1| |] eqn:Hc; try discriminate.
    apply can_print_handshake in Hc. destruct Hc as (hs1 & E1 & F1).
    destruct b; cbn [negb].
    + unfold ret. intros [= _ <-]. now exists hs1.
    + unfold bind, print_stderr, time_sleep, emit. intros H.
      apply wait_loop_handshake in H. destruct H as (hs2 & E2 & F2). cbn [trace] in E2.
      exists (hs1 ++ Stderr ("Waiting for printer..." ^^ NL) :: Sleep (1 # 2) :: hs2). split.
      * rewrite E2, E1, <- !app_assoc. reflexivity.
      * apply Forall_app. split; [assumption|].
        constructor; [exact I|]. constructor; [exact I|assumption].
Qed.

(** *** Every transport carries the command sequence

    A print operation that returns has added to the trace the events of
    its handshake, then the command sequence of the label as its
    transport carries it. *)
Lemma print_barcode_carries fuel config e s s' :
  buffer_clean (self s) ->
  print_barcode fuel config e s = Ok tt s' ->
  exists hs,
    trace s' = trace s ++ hs ++ carried_by (self s) (command_sequence config)
    /\ Forall handshake_event hs.
Proof.
  intros Hclean. unfold carried_by.
  destruct (dry_run (self s)) eqn:Hdry; [|destruct (is_windows (self s)) eqn:Hwin].
  - rewrite print_barcode_dry_run by assumption. intros [= <-].
    exists []. split; [reflexivity|constructor].
  - rewrite print_barcode_spooler by assumption.
    destruct (spooler_error e); [discriminate|]. intros [= <-].
    exists []. split; [reflexivity|constructor].
  - rewrite print_barcode_streaming by assumption.
    destruct (wait_printer fuel e s) as [[] s1| |] eqn:W; try discriminate.
    intros [= <-]. apply wait_printer_handshake in W. destruct W as (hs & E & F).
    exists hs. split; [|assumption]. cbn [trace]. now rewrite E, <- app_assoc.
Qed.

End Runs.

(** ** The readiness check *)

Lemma fullmatch_status_iff tok : fullmatch STATUS_RE tok = true <-> accepted_token tok.
Proof.
  unfold accepted_token, ACCEPTED. split.
  - destruct tok as [|c0 [|c1 [|c2 [|c3 [|c4 t]]]]]; cbn [fullmatch STATUS_RE];
      intros H; repeat (apply andb_true_iff in H; destruct H as [? H]); try discriminate.
    cbn [atom_matches] in *.
    repeat match goal with
           | E : Ascii.eqb _ _ = true |- _ => apply Ascii.eqb_eq in E; subst
           end.
    exists c0. split; [|reflexivity].
    match goal with E : existsb _ _ = true |- _ => apply existsb_exists in E;
      destruct E as (x & Hin & Heq) end.
    apply Ascii.eqb_eq in Heq. now subst.
  - intros (c & Hin & ->).
    cbn in Hin. intuition (subst; reflexivity).
Qed.

Lemma length_string_of_list_byte l : String.length (string_of_list_byte l) = List.length l.
Proof. induction l as [|b l IH]; cbn; [reflexivity|now f_equal]. Qed.

Lemma decode_ascii_bytes b tok :
  decode_ascii b = inr tok -> list_byte_of_string tok = b /\ String.length tok = List.length b.
Proof.
  unfold decode_ascii. destruct (forallb is_ascii b); [|discriminate].
  intros [= <-]. split.
  - apply list_byte_of_string_of_list_byte.
  - apply length_string_of_list_byte.
Qed.

Lemma printer_status_streaming e s :
  streaming (self s) ->
  printer_status e s =
  match decode_ascii (slice 1 5 (firstn 8 (device e (reads s)))) with
  | inr tok => Ok tok (polled e s)
  | inl x => Raise x (polled e s)
  end.
Proof.
  intros [Hdry Hwin]. unfold polled, poll_events.
  destruct s as [[path dry win buf] tr rd]; simpl in Hdry, Hwin; subst dry win.
  exec. flatten_trace.
  destruct (decode_ascii _); reflexivity.
Qed.

(** C2. On the streaming transport the readiness check answers with the
    match of the status token against the pattern; the pattern matches
    exactly the tokens made of one of the characters @ B C F P W followed
    by three @; the nine tokens of the acceptance table come out as the
    table says (the first six ready, the last three not). *)
Theorem readiness_check_table e s tok :
  streaming (self s) ->
  decode_ascii (slice 1 5 (firstn 8 (device e (reads s)))) = inr tok ->
  can_print e s = Ok (fullmatch STATUS_RE tok) (polled e s)
  /\ (fullmatch STATUS_RE tok = true <-> accepted_token tok)
  /\ map (fullmatch STATUS_RE)
       ["@@@@"; "B@@@"; "C@@@"; "F@@@"; "P@@@"; "W@@@"; "E@@@"; "@B@@"; ""]%string
     = [true; true; true; true; true; true; false; false; false].
Proof.
  intros Hs Htok. split; [|split].
  - rewrite can_print_streaming by assumption. unfold poll_answer. now rewrite Htok.
  - apply fullmatch_status_iff.
  - reflexivity.
Qed.

Lemma readiness_check_table_witness :
  streaming (self lp0)
  /\ decode_ascii (slice 1 5 (firstn 8 (device (always reply_ready) (reads lp0))))
     = inr "@@@@"%string
  /\ can_print (always reply_ready) lp0 = Ok true (polled (always reply_ready) lp0).
Proof.
  split; [split; reflexivity|]. split; [reflexivity|].
  apply (readiness_check_table (always reply_ready) lp0 "@@@@");
    [split; reflexivity | reflexivity].
Defined.

(** ** The status query *)

(** C7, as the code has it. A status query on the streaming transport
    writes the probe and reads at most 8 bytes; the token is the ASCII
    decoding of the bytes at offsets 1 up to, not including, 5 of what was
    read (offsets 1, 2, 3 and 4); it has four characters exactly when at
    least five bytes were read, and fewer otherwise; a byte above 127
    among them makes the query raise.  The other two transports answer
    with four @ without any read. *)
Theorem status_token_bytes e s :
  let data := firstn 8 (device e (reads s)) in
  (streaming (self s) ->
     (List.length data <= 8)%nat
     /\ printer_status e s =
        match decode_ascii (slice 1 5 data) with
        | inr tok => Ok tok (polled e s)
        | inl x => Raise x (polled e s)
        end
     /\ (forall tok, decode_ascii (slice 1 5 data) = inr tok ->
           list_byte_of_string tok = slice 1 5 data
           /\ String.length tok = Nat.min 4 (List.length data - 1)
           /\ (String.length tok = 4%nat <-> (5 <= List.length data)%nat))
     /\ (forallb is_ascii (slice 1 5 data) = false ->
           printer_status e s = Raise UnicodeDecodeError (polled e s)))
  /\ (dry_run (self s) = true \/ is_windows (self s) = true ->
        printer_status e s = Ok "@@@@"%string s).
Proof.
  intros data. split.
  - intros Hs. split; [|split; [|split]].
    + subst data. apply firstn_le_length.
    + now apply printer_status_streaming.
    + intros tok Htok. apply decode_ascii_bytes in Htok. destruct Htok as [Hb Hl].
      assert (Hlen : List.length (slice 1 5 data) = Nat.min 4 (List.length data - 1)).
      { unfold slice. now rewrite length_firstn, length_skipn. }
      rewrite Hl, Hlen. split; [assumption|]. split; [reflexivity|lia].
    + intros Hhigh. rewrite printer_status_streaming by assumption.
      fold data. unfold decode_ascii. now rewrite Hhigh.
  - intros H. unfold printer_status, bind, get_self, ret.
    destruct (dry_run (self s)); [reflexivity|].
    destruct H as [H|H]; [discriminate|]. now rewrite H.
Qed.

Lemma status_token_bytes_witness :
  streaming (self lp0)
  /\ printer_status (always reply_abcd) lp0
     = Ok "@BCD"%string (polled (always reply_abcd) lp0)
  /\ printer_status (always reply_ready) dry0 = Ok "@@@@"%string dry0.
Proof.
  split; [split; reflexivity|].
  pose proof (status_token_bytes (always reply_abcd) lp0) as [H _].
  pose proof (status_token_bytes (always reply_ready) dry0) as [_ H'].
  split.
  - destruct (H ltac:(split; reflexivity)) as (_ & E & _). exact E.
  - apply H'. left. reflexivity.
Defined.

(** C7, as stated, fails: of the eight bytes STX @ B C D ETX CR LF the
    token is the four characters at offsets 1 to 4, not the three at
    offsets 1 to 3; and a read that returns three bytes gives a token of
    two characters. *)
Lemma status_token_counterexample :
  printer_status (always reply_abcd) lp0
    = Ok "@BCD"%string (polled (always reply_abcd) lp0)
  /\ decode_ascii (slice 1 4 (firstn 8 reply_abcd)) = inr "@BC"%string
  /\ "@BCD"%string <> "@BC"%string
  /\ printer_status (always reply_short) lp0
       = Ok "@@"%string (polled (always reply_short) lp0)
  /\ List.length (firstn 8 reply_short) = 3%nat
  /\ String.length "@@" = 2%nat.
Proof.
  repeat split; try reflexivity. discriminate.
Qed.

(** ** The backoff of the polling loop *)

Lemma device_reads_app t1 t2 : device_reads (t1 ++ t2) = device_reads t1 ++ device_reads t2.
Proof. apply flat_map_app. Qed.

Lemma sleeps_app t1 t2 : sleeps (t1 ++ t2) = sleeps t1 ++ sleeps t2.
Proof. apply flat_map_app. Qed.

Lemma retries_reads e n : forall k, List.length (device_reads (retries e k n)) = n.
Proof.
  induction n as [|n IH]; intros k; [reflexivity|].
  cbn [retries poll_events app device_reads flat_map List.length]. f_equal. apply IH.
Qed.

Lemma retries_sleeps e n : forall k, sleeps (retries e k n) = repeat 1%Q n.
Proof.
  induction n as [|n IH]; intros k; [reflexivity|].
  cbn [retries poll_events app sleeps flat_map repeat]. f_equal. apply IH.
Qed.

(** C5. On a streaming device that answers not ready twice and then
    ready, the wait returns after exactly three status queries: probe and
    read, the notice, a sleep of 0.5, probe and read, a sleep of 1, probe
    and read; the waits add up to 1.5.  The number of retries is not
    bounded: if the device answers not ready n+1 times and then ready, the
    wait makes n+2 queries, sleeping 0.5 once and then 1 after each further
    refusal; and if the device never answers ready the wait never returns,
    whatever the fuel. *)
Theorem backoff_schedule e s :
  streaming (self s) ->
  (poll_answer (device e (reads s)) = inr false ->
   poll_answer (device e (reads s + 1)) = inr false ->
   poll_answer (device e (reads s + 2)) = inr true ->
   forall fuel, (2 <= fuel)%nat ->
   exists hs,
     wait_printer fuel e s = Ok tt (mkState (self s) (trace s ++ hs) (reads s + 3))
     /\ hs = [DevWrite STATUS_PROBE; DevRead 8 (firstn 8 (device e (reads s)));
              Stderr ("Waiting for printer..." ^^ NL); Sleep (1 # 2);
              DevWrite STATUS_PROBE; DevRead 8 (firstn 8 (device e (reads s + 1)));
              Sleep 1;
              DevWrite STATUS_PROBE; DevRead 8 (firstn 8 (device e (reads s + 2)))]
     /\ List.length (device_reads hs) = 3%nat
     /\ sleeps hs = [1 # 2; 1]%Q
     /\ (total_sleep hs == 3 # 2)%Q)
  /\ (forall n fuel, (n < fuel)%nat ->
      (forall i, (i <= n)%nat -> poll_answer (device e (reads s + i)) = inr false) ->
      poll_answer (device e (reads s + S n)) = inr true ->
      exists hs,
        wait_printer fuel e s = Ok tt (mkState (self s) (trace s ++ hs) (reads s + S (S n)))
        /\ List.length (device_reads hs) = S (S n)
        /\ sleeps hs = (1 # 2)%Q :: repeat 1%Q n)
  /\ ((forall i, poll_answer (device e (reads s + i)) = inr false) ->
      forall fuel, wait_printer fuel e s = OutOfFuel).
Proof.
  intros Hs. split; [|split].
  - intros H0 H1 H2 fuel Hfuel. eexists. split; [|split; [reflexivity|]].
    + assert (Hbusy : forall i, (i <= 1)%nat ->
                poll_answer (device e (reads s + i)) = inr false).
      { intros i Hi. destruct i as [|[|i]];
          [now rewrite Nat.add_0_r | assumption | lia]. }
      rewrite (wait_printer_ready_after 1 fuel e s Hs Hbusy H2) by lia.
      replace (S (reads s)) with (reads s + 1)%nat by lia.
      cbn [retries poll_events app].
      reflexivity.
    + repeat split; reflexivity.
  - intros n fuel Hfuel Hbusy Hready. eexists. split; [|split].
    + rewrite (wait_printer_ready_after n) by assumption. reflexivity.
    + rewrite !device_reads_app, !length_app, retries_reads. cbn. lia.
    + rewrite !sleeps_app, retries_sleeps. cbn.
      now rewrite app_nil_r.
  - intros Hbusy fuel. now apply wait_printer_never_ready.
Qed.

Lemma backoff_schedule_witness :
  streaming (self lp0)
  /\ poll_answer (device (busy_then_ready 2) (reads lp0)) = inr false
  /\ poll_answer (device (busy_then_ready 2) (reads lp0 + 1)) = inr false
  /\ poll_answer (device (busy_then_ready 2) (reads lp0 + 2)) = inr true
  /\ wait_printer 2 (busy_then_ready 2) lp0
     = Ok tt (mkState (self lp0)
                [DevWrite STATUS_PROBE; DevRead 8 reply_busy;
                 Stderr ("Waiting for printer..." ^^ NL); Sleep (1 # 2);
                 DevWrite STATUS_PROBE; DevRead 8 reply_busy;
                 Sleep 1;
                 DevWrite STATUS_PROBE; DevRead 8 reply_ready] 3)
  /\ (forall fuel, wait_printer fuel (always reply_busy) lp0 = OutOfFuel).
Proof.
  assert (Hs : streaming (self lp0)) by (split; reflexivity).
  split; [exact Hs|]. do 3 (split; [reflexivity|]). split.
  - destruct (backoff_schedule (busy_then_ready 2) lp0 Hs) as (H & _ & _).
    destruct (H eq_refl eq_refl eq_refl 2%nat (le_n 2)) as (hs & E & Ehs & _).
    rewrite E, Ehs. reflexivity.
  - destruct (backoff_schedule (always reply_busy) lp0 Hs) as (_ & _ & H).
    apply H. intros i. reflexivity.
Defined.

(** ** Malformed status replies *)

Lemma fullmatch_status_length tok :
  fullmatch STATUS_RE tok = true -> String.length tok = 4%nat.
Proof.
  intros H. apply fullmatch_status_iff in H. destruct H as (c & _ & ->). reflexivity.
Qed.

(** C6, as the code has it. On the streaming transport a reply whose
    token bytes (offsets 1 to 4 of the at most 8 bytes read) are all ASCII
    never makes the readiness check raise: the check answers with the
    match of the decoded token, so a reply shorter than five bytes is
    reported not ready, and the wait then prints its notice, sleeps 0.5
    and polls again (it returns after the second query when that one
    reports ready).  A reply with a byte above 127 among its token bytes
    makes the check raise UnicodeDecodeError, which ends the wait and the
    print operation after the first query, before any command is sent. *)
Theorem malformed_status_reply fuel config e s :
  streaming (self s) ->
  let data := firstn 8 (device e (reads s)) in
  (forallb is_ascii (slice 1 5 data) = true ->
     exists tok, decode_ascii (slice 1 5 data) = inr tok
       /\ can_print e s = Ok (fullmatch STATUS_RE tok) (polled e s))
  /\ (forallb is_ascii (slice 1 5 data) = true -> (List.length data < 5)%nat ->
        can_print e s = Ok false (polled e s)
        /\ wait_printer fuel e s =
           wait_loop fuel e
             (mkState (self s)
                (trace s ++ poll_events (device e (reads s))
                   ++ [Stderr ("Waiting for printer..." ^^ NL); Sleep (1 # 2)])
                (S (reads s)))
        /\ (poll_answer (device e (reads s + 1)) = inr true -> (1 <= fuel)%nat ->
            wait_printer fuel e s =
            Ok tt (mkState (self s)
                     (trace s ++ poll_events (device e (reads s))
                        ++ [Stderr ("Waiting for printer..." ^^ NL); Sleep (1 # 2)]
                        ++ poll_events (device e (reads s + 1)))
                     (reads s + 2))))
  /\ (forallb is_ascii (slice 1 5 data) = false ->
        can_print e s = Raise UnicodeDecodeError (polled e s)
        /\ wait_printer fuel e s = Raise UnicodeDecodeError (polled e s)
        /\ print_barcode fuel config e s = Raise UnicodeDecodeError (polled e s)).
Proof.
  intros Hs data.
  assert (Hdec : forallb is_ascii (slice 1 5 data) = true ->
                 decode_ascii (slice 1 5 data) = inr (string_of_list_byte (slice 1 5 data))).
  { intros H. unfold decode_ascii. now rewrite H. }
  split; [|split].
  - intros Hascii. eexists. split; [apply Hdec, Hascii|].
    rewrite can_print_streaming by assumption. unfold poll_answer. fold data.
    now rewrite (Hdec Hascii).
  - intros Hascii Hlen.
    assert (Hbusy : poll_answer (device e (reads s)) = inr false).
    { unfold poll_answer. fold data. rewrite (Hdec Hascii). f_equal.
      destruct (fullmatch STATUS_RE _) eqn:Hm; [|reflexivity].
      apply fullmatch_status_length in Hm.
      rewrite length_string_of_list_byte in Hm.
      unfold slice in Hm. rewrite length_firstn, length_skipn in Hm. lia. }
    split; [|split].
    + rewrite can_print_streaming by assumption. now rewrite Hbusy.
    + now apply wait_printer_busy_first.
    + intros Hready Hfuel.
      rewrite (wait_printer_ready_after 0 fuel e s Hs); try assumption; try lia.
      * cbn [retries app]. reflexivity.
      * intros i Hi. replace i with 0%nat by lia. now rewrite Nat.add_0_r.
  - intros Hhigh.
    assert (Hx : poll_answer (device e (reads s)) = inl UnicodeDecodeError).
    { unfold poll_answer, decode_ascii. fold data. now rewrite Hhigh. }
    split; [|split].
    + rewrite can_print_streaming by assumption. now rewrite Hx.
    + now apply wait_printer_raises.
    + destruct Hs as [Hdry Hwin].
      rewrite print_barcode_streaming by assumption.
      now rewrite (wait_printer_raises fuel e s UnicodeDecodeError (conj Hdry Hwin) Hx).
Qed.

Lemma malformed_status_reply_witness :
  streaming (self lp0)
  /\ forallb is_ascii (slice 1 5 (firstn 8 reply_short)) = true
  /\ (List.length (firstn 8 reply_short) < 5)%nat
  /\ can_print (always reply_short) lp0 = Ok false (polled (always reply_short) lp0)
  /\ forallb is_ascii (slice 1 5 (firstn 8 reply_high)) = false
  /\ print_barcode 3 full_label (always reply_high) lp0
     = Raise UnicodeDecodeError (polled (always reply_high) lp0).
Proof.
  assert (Hs : streaming (self lp0)) by (split; reflexivity).
  split; [exact Hs|]. split; [reflexivity|]. split; [cbn; lia|]. split.
  - destruct (malformed_status_reply 3 full_label (always reply_short) lp0 Hs)
      as (_ & H & _).
    destruct (H eq_refl ltac:(cbn; lia)) as (E & _). exact E.
  - split; [reflexivity|].
    destruct (malformed_status_reply 3 full_label (always reply_high) lp0 Hs)
      as (_ & _ & H).
    destruct (H eq_refl) as (_ & _ & E). exact E.
Defined.

(** C6, as stated, fails: a reply carrying the byte 255 in its token makes
    the readiness check, and with it the whole print operation, raise
    UnicodeDecodeError after the first query; and a reply cut to five
    bytes that carries a matching token is reported ready. *)
Lemma malformed_status_counterexample :
  can_print (always reply_high) lp0
    = Raise UnicodeDecodeError (polled (always reply_high) lp0)
  /\ print_barcode 3 full_label (always reply_high) lp0
    = Raise UnicodeDecodeError
        (mkState (self lp0) [DevWrite STATUS_PROBE; DevRead 8 reply_high] 1)
  /\ can_print (always reply_five) lp0 = Ok true (polled (always reply_five) lp0).
Proof. repeat split; reflexivity. Qed.

(** ** The command sequence of a label *)

Section Sequence.
Local Opaque Z.add Z.mul Z.div str.

(** C1. In the command sequence of every label a CLS occurs with no TEXT
    or BARCODE command before it, and the last command is the PRINT
    command; and every print operation that returns, on whichever
    transport, has carried exactly this sequence after the events of its
    handshake. *)
Theorem cls_first_print_last config :
  cls_before_drawing (command_sequence config)
  /\ (exists init, command_sequence config = init ++ [print_line config])
  /\ last (command_sequence config) EmptyString = print_line config
  /\ starts_with "PRINT " (print_line config) = true
  /\ (forall fuel e s s',
        buffer_clean (self s) ->
        print_barcode fuel config e s = Ok tt s' ->
        exists hs,
          trace s' = trace s ++ hs ++ carried_by (self s) (command_sequence config)
          /\ Forall handshake_event hs).
Proof.
  split; [|split; [|split; [|split]]].
  - rewrite command_sequence_eq. unfold preamble.
    eexists [_; _; _; _], _. split; [reflexivity|].
    repeat constructor.
  - rewrite command_sequence_eq. eexists. rewrite !app_assoc. reflexivity.
  - rewrite command_sequence_eq, !app_assoc. apply last_last.
  - reflexivity.
  - intros fuel e s s' Hclean Hrun.
    eapply print_barcode_carries; eassumption.
Qed.

Lemma cls_first_print_last_witness :
  buffer_clean (self lp0)
  /\ exists s', print_barcode 0 full_label (always reply_ready) lp0 = Ok tt s'
     /\ exists hs,
          trace s' = trace lp0 ++ hs ++ carried_by (self lp0) (command_sequence full_label)
          /\ Forall handshake_event hs.
Proof.
  split; [left; reflexivity|].
  eexists. split; [vm_compute; reflexivity|].
  apply (cls_first_print_last full_label) with (fuel := 0%nat) (e := always reply_ready);
    [left; reflexivity | vm_compute; reflexivity].
Defined.

(** C3. An element whose content is empty gives no command: the TEXT
    commands of the sequence are as many as the non-empty texts, the
    BARCODE commands as many as the non-empty barcode data (none when
    [barcode_data] is empty, none of either text when both texts are
    empty), and the sequence has 5 commands of preamble, one per non-empty
    element and the PRINT command. *)
Theorem empty_elements_omitted config :
  let cmds := command_sequence config in
  let present (s : string) := Nat.b2n (truthy s) in
  List.length (filter is_text cmds)
    = (present (top_text config) + present (bottom_text config))%nat
  /\ List.length (filter is_barcode cmds) = present (barcode_data config)
  /\ (barcode_data config = EmptyString -> Forall (fun c => is_barcode c = false) cmds)
  /\ (top_text config = EmptyString -> bottom_text config = EmptyString ->
        Forall (fun c => is_text c = false) cmds)
  /\ (top_text config = EmptyString ->
        filter is_text cmds = bottom_lines config)
  /\ (bottom_text config = EmptyString ->
        filter is_text cmds = top_lines config)
  /\ List.length cmds
     = (5 + (present (top_text config) + present (barcode_data config)
             + present (bottom_text config)) + 1)%nat.
Proof.
  cbv zeta. rewrite command_sequence_eq.
  unfold preamble, top_lines, barcode_lines, bottom_lines, print_line.
  destruct config as [w h g bt bh bw fs top bottom data o n].
  cbn [top_text bottom_text barcode_data].
  destruct top, data, bottom; cbn;
    (split; [reflexivity|]); (split; [reflexivity|]);
    (split; [intros E; try discriminate E; repeat constructor|]);
    (split; [intros E E'; try discriminate E; try discriminate E'; repeat constructor|]);
    (split; [intros E; try discriminate E; reflexivity|]);
    (split; [intros E; try discriminate E; reflexivity|]);
    reflexivity.
Qed.

Lemma empty_elements_omitted_witness :
  barcode_data bottom_only = EmptyString
  /\ top_text bottom_only = EmptyString
  /\ Forall (fun c => is_barcode c = false) (command_sequence bottom_only)
  /\ filter is_text (command_sequence bottom_only) = bottom_lines bottom_only
  /\ List.length (command_sequence bottom_only) = 7%nat.
Proof.
  split; [reflexivity|]. split; [reflexivity|].
  destruct (empty_elements_omitted bottom_only) as (_ & _ & Hb & _ & Ht & _ & Hl).
  split; [exact (Hb eq_refl)|]. split; [exact (Ht eq_refl)|]. exact Hl.
Defined.

End Sequence.

(** ** Geometry is not validated *)

Section Geometry.
Local Opaque Z.add Z.mul Z.div str String.append.

(** On the spooler transport the outcome depends on the spooler alone. *)
Lemma print_barcode_spooler_outcome fuel config e s :
  dry_run (self s) = false -> is_windows (self s) = true ->
  match spooler_error e with
  | None => exists s', print_barcode fuel config e s = Ok tt s'
  | Some msg =>
      exists s', print_barcode fuel config e s
                 = Raise (Exception ("Failed to send data to Windows printer: " ^^ msg)) s'
  end.
Proof.
  intros Hdry Hwin.
  destruct s as [[path dry win buf] tr rd]; simpl in Hdry, Hwin; subst dry win.
  destruct config as [w h g bt bh bw fs top bottom data o n].
  destruct e as [dev err].
  destruct err, buf as [[|c l]|], top, data, bottom; exec; eexists; reflexivity.
Qed.

(** Whatever a print operation raises, it raises for every other label
    too: errors come from the transport, never from the configuration. *)
Lemma print_barcode_raise_any_config fuel config config' e s x s1 :
  print_barcode fuel config e s = Raise x s1 ->
  exists s2, print_barcode fuel config' e s = Raise x s2.
Proof.
  destruct (dry_run (self s)) eqn:Hdry; [|destruct (is_windows (self s)) eqn:Hwin].
  - rewrite print_barcode_dry_run by assumption. discriminate.
  - pose proof (print_barcode_spooler_outcome fuel config e s Hdry Hwin) as H.
    pose proof (print_barcode_spooler_outcome fuel config' e s Hdry Hwin) as H'.
    destruct (spooler_error e).
    + destruct H as (s' & ->). destruct H' as (s2 & ->).
      intros [= <- _]. now exists s2.
    + destruct H as (s' & ->). discriminate.
  - rewrite !print_barcode_streaming by assumption.
    destruct (wait_printer fuel e s) as [[] s'| |]; try discriminate.
    intros [= <- <-]. now eexists.
Qed.

End Geometry.

(** C4, as the code has it. A label whose width or height is zero or
    negative is printed like any other: its command sequence opens with
    the SIZE command carrying those dimensions; on the dry-run transport
    the operation returns normally having logged the sequence; on a
    streaming device that reports ready it returns normally having written
    the sequence to the device; and an error it raises is one the
    operation raises for the default label too, on the same transport. *)
Theorem no_geometry_validation config :
  width_mm config <= 0 \/ height_mm config <= 0 ->
  hd_error (command_sequence config)
    = Some ("SIZE " ^^ str (width_mm config) ^^ " mm," ^^ str (height_mm config) ^^ " mm")
  /\ (forall fuel e s, dry_run (self s) = true ->
        print_barcode fuel config e s
        = Ok tt (mkState (self s) (trace s ++ map Stdout (command_sequence config))
                   (reads s)))
  /\ (forall fuel e s, streaming (self s) ->
        poll_answer (device e (reads s)) = inr true ->
        print_barcode fuel config e s
        = Ok tt (mkState (self s)
                   (trace s ++ poll_events (device e (reads s))
                      ++ streamed (command_sequence config))
                   (S (reads s))))
  /\ (forall fuel e s x s1,
        print_barcode fuel config e s = Raise x s1 ->
        exists s2, print_barcode fuel default_config e s = Raise x s2).
Proof.
  intros _. split; [|split; [|split]].
  - rewrite command_sequence_eq. reflexivity.
  - intros fuel e s Hdry. now apply print_barcode_dry_run.
  - intros fuel e s Hs Hready. destruct Hs as [Hdry Hwin].
    rewrite print_barcode_streaming by assumption.
    rewrite (wait_printer_ready_first fuel e s (conj Hdry Hwin) Hready).
    unfold polled. cbn [self trace reads]. now rewrite <- app_assoc.
  - intros fuel e s x s1. apply print_barcode_raise_any_config.
Qed.

Lemma no_geometry_validation_witness :
  (width_mm flat_label <= 0 \/ height_mm flat_label <= 0)
  /\ print_barcode 0 flat_label silent_env dry0
     = Ok tt (mkState (self dry0)
                (trace dry0 ++ map Stdout (command_sequence flat_label)) (reads dry0)).
Proof.
  assert (H : width_mm flat_label <= 0 \/ height_mm flat_label <= 0)
    by (left; cbn; lia).
  split; [exact H|].
  destruct (no_geometry_validation flat_label H) as (_ & Hdry & _).
  apply Hdry. reflexivity.
Defined.

(** C4, as stated, fails: a label of width 0 and height -5 raises nothing;
    on the dry-run transport its commands are logged, and on a ready
    device they are written to the device. *)
Lemma configuration_error_counterexample :
  width_mm flat_label <= 0 /\ height_mm flat_label <= 0
  /\ print_barcode 0 flat_label silent_env dry0
     = Ok tt (mkState (self dry0)
                (map Stdout
                   ["SIZE 0 mm,-5 mm"; "GAP 2 mm,0 mm"; "CODEPAGE UTF-8";
                    "DIRECTION 1"; "CLS";
                    "TEXT 0,10," ^^ DQ ^^ "0" ^^ DQ ^^ ",0,24,24,2," ^^ DQ ^^ "PRODUCT" ^^ DQ;
                    "PRINT 1,1"]%string) 0)
  /\ (exists s', print_barcode 0 flat_label (always reply_ready) lp0 = Ok tt s'
        /\ device_writes (trace s')
           = STATUS_PROBE
             :: flat_map (fun c => [encode_utf8 c; encode_utf8 CRLF])
                  (command_sequence flat_label)).
Proof.
  split; [cbn; lia|]. split; [cbn; lia|]. split; [reflexivity|].
  eexists. split; [vm_compute; reflexivity|]. vm_compute. reflexivity.
Qed.

(** ** Determinism and the dry-run transport *)

Lemma stdout_lines_map_Stdout l : stdout_lines (map Stdout l) = l.
Proof. induction l as [|c l IH]; cbn; [reflexivity|now f_equal]. Qed.

Lemma map_Stdout_no_device_io l : Forall (fun ev => is_device_io ev = false) (map Stdout l).
Proof. induction l; cbn; constructor; [reflexivity|assumption]. Qed.

(** C8. The command sequence is a function of the configuration alone.
    On the dry-run transport the operation always returns, whatever the
    fuel, the environment and the earlier events, and it adds to the trace
    exactly the lines of the sequence, one standard-output line per
    command, none of them a device write, a device read or a spooler job,
    and the count of reads is unchanged; any two print operations of one
    configuration that return, on any transports and from any states,
    carry the same sequence after their handshakes; and two operations in
    a row on one dry-run printer log the sequence twice. *)
Theorem emission_deterministic config :
  (forall fuel e s, dry_run (self s) = true ->
     print_barcode fuel config e s
     = Ok tt (mkState (self s) (trace s ++ map Stdout (command_sequence config)) (reads s)))
  /\ stdout_lines (map Stdout (command_sequence config)) = command_sequence config
  /\ Forall (fun ev => is_device_io ev = false) (map Stdout (command_sequence config))
  /\ (forall fuel1 fuel2 e1 e2 s1 s2 s1' s2',
        buffer_clean (self s1) -> buffer_clean (self s2) ->
        print_barcode fuel1 config e1 s1 = Ok tt s1' ->
        print_barcode fuel2 config e2 s2 = Ok tt s2' ->
        exists hs1 hs2,
          trace s1' = trace s1 ++ hs1 ++ carried_by (self s1) (command_sequence config)
          /\ trace s2' = trace s2 ++ hs2 ++ carried_by (self s2) (command_sequence config)
          /\ Forall handshake_event hs1 /\ Forall handshake_event hs2)
  /\ (forall fuel1 fuel2 e s, dry_run (self s) = true ->
        (print_barcode fuel1 config ;; print_barcode fuel2 config)%monad e s
        = Ok tt (mkState (self s)
                   (trace s ++ map Stdout (command_sequence config)
                      ++ map Stdout (command_sequence config))
                   (reads s))).
Proof.
  split; [|split; [|split; [|split]]].
  - intros fuel e s Hdry. now apply print_barcode_dry_run.
  - apply stdout_lines_map_Stdout.
  - apply map_Stdout_no_device_io.
  - intros fuel1 fuel2 e1 e2 s1 s2 s1' s2' C1 C2 R1 R2.
    destruct (print_barcode_carries _ _ _ _ _ C1 R1) as (hs1 & E1 & F1).
    destruct (print_barcode_carries _ _ _ _ _ C2 R2) as (hs2 & E2 & F2).
    now exists hs1, hs2.
  - intros fuel1 fuel2 e s Hdry. unfold bind.
    rewrite print_barcode_dry_run by assumption.
    rewrite print_barcode_dry_run by assumption.
    cbn [self trace reads]. now rewrite <- app_assoc.
Qed.

Lemma emission_deterministic_witness :
  dry_run (self dry0) = true
  /\ print_barcode 0 full_label silent_env dry0
     = Ok tt (mkState (self dry0)
                (trace dry0 ++ map Stdout (command_sequence full_label)) (reads dry0))
  /\ print_barcode 7 full_label (always reply_busy) dry0
     = Ok tt (mkState (self dry0)
                (trace dry0 ++ map Stdout (command_sequence full_label)) (reads dry0)).
Proof.
  split; [reflexivity|].
  destruct (emission_deterministic full_label) as (H & _).
  split; apply H; reflexivity.
Defined.

(** ** Vertical placement *)

Lemma uint_no_comma u : has_comma (NilEmpty.string_of_uint u) = false.
Proof. induction u; cbn; assumption || reflexivity. Qed.

Lemma str_no_comma z : has_comma (str z) = false.
Proof.
  unfold str. destruct (Z.to_int z) as [u|u]; cbn;
    destruct u; cbn; try reflexivity; apply uint_no_comma.
Qed.

Lemma str_inj a b : str a = str b -> a = b.
Proof.
  assert (Hnil : forall z, Z.to_int z <> Decimal.Pos Decimal.Nil
                           /\ Z.to_int z <> Decimal.Neg Decimal.Nil).
  { intros [|p|p]; cbn; split; try discriminate;
      intros [= H]; now apply Unsigned.to_uint_nonnil in H. }
  unfold str. intros H.
  assert (E : Some (Z.to_int a) = Some (Z.to_int b)).
  { rewrite <- (NilZero.isi (Z.to_int a)), <- (NilZero.isi (Z.to_int b));
      try apply Hnil. now rewrite H. }
  injection E as E. rewrite <- (DecimalZ.of_to a), <- (DecimalZ.of_to b). now rewrite E.
Qed.

(** Two strings free of commas, each followed by a comma: the first
    comma marks where they end. *)
Lemma comma_split a : forall b r r',
  has_comma a = false -> has_comma b = false ->
  a ^^ String "," r = b ^^ String "," r' -> a = b /\ r = r'.
Proof.
  induction a as [|c a IH]; intros [|d b] r r' Ha Hb H; cbn in *.
  - injection H as ->. now split.
  - injection H as <- _. discriminate Hb.
  - injection H as -> _. discriminate Ha.
  - injection H as -> H.
    apply orb_false_elim in Ha, Hb. destruct Ha as [_ Ha], Hb as [_ Hb].
    destruct (IH b r r' Ha Hb H) as [-> ->]. now split.
Qed.

Lemma str_comma_split a b r r' :
  str a ^^ String "," r = str b ^^ String "," r' -> a = b /\ r = r'.
Proof.
  intros H. apply comma_split in H; try apply str_no_comma.
  destruct H as [H ->]. split; [now apply str_inj|reflexivity].
Qed.

Lemma cons_eq_inv {A : Type} (a b : A) (l l' : list A) :
  a :: l = b :: l' -> a = b /\ l = l'.
Proof. intros H. injection H as -> ->. now split. Qed.

Section Placement.
Local Opaque Z.add Z.mul Z.div str.

(** The y offset of a drawing command can be read back from its text. *)
Lemma text_line_y x y size text x' y' size' text' :
  text_line x y size text = text_line x' y' size' text' -> y = y'.
Proof.
  unfold text_line. cbn. intros [= H].
  apply str_comma_split in H. destruct H as [_ H].
  apply str_comma_split in H. now destruct H as [H _].
Qed.

Lemma barcode_line_y x y h n d x' y' h' n' d' :
  barcode_line x y h n d = barcode_line x' y' h' n' d' -> y = y'.
Proof.
  unfold barcode_line. cbn. intros [= H].
  apply str_comma_split in H. destruct H as [_ H].
  apply str_comma_split in H. now destruct H as [H _].
Qed.

(** The sequence the code emits is the layout of the specification with
    a gap of 10 dots after a text and of 20 dots after the barcode. *)
Lemma command_sequence_layout config :
  command_sequence config = spec_layout 10 10 20 config.
Proof.
  rewrite command_sequence_eq.
  unfold spec_layout, top_lines, barcode_lines, bottom_lines, y_bottom, y_barcode,
    x_center, y_top.
  destruct (truthy (top_text config)), (truthy (barcode_data config)),
    (truthy (bottom_text config)); reflexivity.
Qed.

(** C9, as the code has it. Placement starts at 10 dots, and each
    element present is followed by its rendered height (the font size for
    a text, the barcode height times the dots per millimetre for the
    barcode) plus a gap of 10 dots after a text and of 20 dots after the
    barcode; an absent element consumes nothing.  With all three elements
    the drawing commands are at 10, at 10 + font size + 10 and at that
    plus barcode height in dots + 20. *)
Theorem layout_offsets config :
  command_sequence config = spec_layout 10 10 20 config
  /\ (truthy (top_text config) = true -> truthy (barcode_data config) = true ->
      truthy (bottom_text config) = true ->
      let x := width_mm config * DOTS_MM / 2 in
      let fs := font_size config in
      let bh := barcode_height config * DOTS_MM in
      command_sequence config =
      preamble config
      ++ [text_line x 10 fs (top_text config);
          barcode_line x (10 + (fs + 10)) bh (barcode_width config) (barcode_data config);
          text_line x (10 + (fs + 10) + (bh + 20)) fs (bottom_text config);
          print_line config])
  /\ (truthy (top_text config) = false -> truthy (barcode_data config) = true ->
      truthy (bottom_text config) = true ->
      let x := width_mm config * DOTS_MM / 2 in
      let fs := font_size config in
      let bh := barcode_height config * DOTS_MM in
      command_sequence config =
      preamble config
      ++ [barcode_line x 10 bh (barcode_width config) (barcode_data config);
          text_line x (10 + (bh + 20)) fs (bottom_text config);
          print_line config]).
Proof.
  pose proof (command_sequence_layout config) as E.
  split; [exact E|]. split; intros Ht Hd Hb; rewrite E; unfold spec_layout;
    rewrite Ht, Hd, Hb; reflexivity.
Qed.

Lemma layout_offsets_witness :
  truthy (top_text full_label) = true
  /\ truthy (barcode_data full_label) = true
  /\ truthy (bottom_text full_label) = true
  /\ command_sequence full_label =
     preamble full_label
     ++ [text_line 400 10 24 "PRODUCT";
         barcode_line 400 44 120 2 "123456789012";
         text_line 400 184 24 "Made in USA";
         print_line full_label].
Proof.
  do 3 (split; [reflexivity|]).
  destruct (layout_offsets full_label) as (_ & H & _).
  exact (H eq_refl eq_refl eq_refl).
Defined.

(** C9, as stated, fails: no single gap accounts for the label with all
    three elements, whose barcode is drawn 10 dots below the end of the
    top text and whose bottom text is drawn 20 dots below the end of the
    barcode. *)
Lemma uniform_gap_counterexample :
  ~ exists gap, command_sequence full_label = spec_layout 10 gap gap full_label.
Proof.
  intros (gap & H).
  rewrite command_sequence_layout in H.
  unfold spec_layout in H. cbn [truthy top_text barcode_data bottom_text full_label] in H.
  apply app_inv_head in H. cbn [app] in H.
  apply cons_eq_inv in H. destruct H as [_ H].
  apply cons_eq_inv in H. destruct H as [Hbar H].
  apply cons_eq_inv in H. destruct H as [Hbottom _].
  apply barcode_line_y in Hbar. apply text_line_y in Hbottom.
  cbn [font_size barcode_height full_label] in Hbar, Hbottom. lia.
Qed.

End Placement.

(** ** The badge path *)

Module BadgeFacts.
Import PrintBadge.

Ltac exec_badge :=
  unfold Printer.print, Printer.wait_printer, Printer.page_setup, Printer.command,
    Printer.can_print, Printer.printer_status, bind, get_self, set_self, print_stdout,
    print_stderr, time_sleep, os_write, os_read, emit, ret, raise, lift;
  simpl.

Section BadgeRuns.
Local Opaque Z.add Z.mul Z.div str String.append.

Lemma can_print_poll e s :
  Printer.can_print e s =
  match poll_answer (device e (reads s)) with
  | inr b => Ok b (badge_polled e s)
  | inl x => Raise x (badge_polled e s)
  end.
Proof.
  unfold poll_answer, badge_polled, poll_events.
  destruct s as [pr tr rd]. exec_badge. flatten_trace.
  destruct (decode_ascii _); reflexivity.
Qed.

Lemma badge_wait_loop_self fuel : forall e s u s',
  Printer.wait_loop fuel e s = Ok u s' -> self s' = self s.
Proof.
  induction fuel as [|fuel IH]; intros e s u s'; [discriminate|].
  cbn [Printer.wait_loop]. unfold bind at 1. rewrite can_print_poll.
  destruct (poll_answer _) as [x|[|]]; try discriminate; cbn [negb].
  - unfold ret. now intros [= _ <-].
  - unfold bind, print_stderr, time_sleep, emit. intros H. apply IH in H. exact H.
Qed.

Lemma badge_wait_printer_self fuel e s u s' :
  Printer.wait_printer fuel e s = Ok u s' -> self s' = self s.
Proof.
  unfold Printer.wait_printer. unfold bind at 1. unfold get_self.
  destruct (dry_run (Printer.params (self s))).
  - unfold ret. now intros [= _ <-].
  - unfold bind at 1. rewrite can_print_poll.
    destruct (poll_answer _) as [x|[|]]; try discriminate; cbn [negb].
    + unfold ret. now intros [= _ <-].
    + unfold bind at 1. unfold print_stderr, emit. unfold bind at 1. unfold time_sleep, emit.
      unfold bind at 1.
      destruct (Printer.wait_loop fuel e _) as [[] s1| |] eqn:W; try discriminate.
      apply badge_wait_loop_self in W. cbn [self] in W.
      unfold emit. intros [= _ <-]. exact W.
Qed.

Lemma badge_wait_printer_ready_first fuel e s :
  dry_run (Printer.params (self s)) = false ->
  poll_answer (device e (reads s)) = inr true ->
  Printer.wait_printer fuel e s = Ok tt (badge_polled e s).
Proof.
  intros Hdry Hready. unfold Printer.wait_printer. unfold bind at 1. unfold get_self.
  rewrite Hdry. unfold bind at 1. rewrite can_print_poll. now rewrite Hready.
Qed.

Lemma print_dry_run fuel e s :
  dry_run (Printer.params (self s)) = true ->
  Printer.print fuel e s =
  Ok tt (mkState (self s)
           (trace s ++ map Stdout (badge_sequence (self s)) ++ [Stdout (badge_summary (self s))])
           (reads s)).
Proof.
  intros Hdry. unfold badge_sequence, badge_summary, Badge.print.
  destruct s as [[[dry y n o l1 l2] b] tr rd]; simpl in Hdry; subst dry.
  exec_badge. flatten_trace. reflexivity.
Qed.

Lemma print_streaming fuel e s :
  dry_run (Printer.params (self s)) = false ->
  Printer.print fuel e s =
  match Printer.wait_printer fuel e s with
  | Ok _ s1 =>
      Ok tt (mkState (self s1)
               (trace s1 ++ streamed (badge_sequence (self s))
                  ++ [Stdout (badge_summary (self s))])
               (reads s1))
  | Raise x s1 => Raise x s1
  | OutOfFuel => OutOfFuel
  end.
Proof.
  intros Hdry. unfold Printer.print. unfold bind at 1.
  destruct (Printer.wait_printer fuel e s) as [[] s1| |] eqn:W; try reflexivity.
  apply badge_wait_printer_self in W. rewrite <- W in *. clear W.
  unfold badge_sequence, badge_summary, Badge.print, streamed.
  destruct s1 as [[[dry y n o l1 l2] b] tr rd]; simpl in Hdry; subst dry.
  exec_badge. flatten_trace. reflexivity.
Qed.

End BadgeRuns.

(** C10. The badge body is always CLS followed by two TEXT commands,
    whatever the two lines: an empty line gives a TEXT command whose text
    operand is the empty quoted string.  A badge print operation on the
    dry-run transport returns having logged the 4 commands of the page
    setup, CLS, the two TEXT commands and PRINT, 8 commands in all,
    followed by the summary line; on the device, once the wait has
    returned, the same 8 commands are written, each followed by CR LF. *)
Theorem badge_body_unconditional (pr : Printer.t) :
  Badge.print (Printer.badge pr)
  = ["CLS"%string;
     Badge.text_format 400 40 "0" 36 36 (Badge.line1 (Printer.badge pr));
     Badge.text_format 400 144 "0" 36 36 (Badge.line2 (Printer.badge pr))]
  /\ map is_text (Badge.print (Printer.badge pr)) = [false; true; true]
  /\ Badge.text_format 400 40 "0" 36 36 EmptyString
     = "TEXT 400,40," ^^ DQ ^^ "0" ^^ DQ ^^ ",0,36,36,2," ^^ DQ ^^ DQ
  /\ Badge.text_format 400 144 "0" 36 36 EmptyString
     = "TEXT 400,144," ^^ DQ ^^ "0" ^^ DQ ^^ ",0,36,36,2," ^^ DQ ^^ DQ
  /\ badge_sequence pr
     = ["SIZE 100 mm,35 mm"; "GAP 2 mm,0 mm"; "CODEPAGE UTF-8";
        "DIRECTION " ^^ str (orient (Printer.params pr))]%string
       ++ Badge.print (Printer.badge pr)
       ++ ["PRINT 1," ^^ str (num (Printer.params pr))]
  /\ List.length (badge_sequence pr) = 8%nat
  /\ List.length (filter is_text (badge_sequence pr)) = 2%nat
  /\ (forall fuel e s, self s = pr -> dry_run (Printer.params pr) = true ->
        Printer.print fuel e s =
        Ok tt (mkState pr
                 (trace s ++ map Stdout (badge_sequence pr) ++ [Stdout (badge_summary pr)])
                 (reads s)))
  /\ (forall fuel e s s', self s = pr -> dry_run (Printer.params pr) = false ->
        Printer.print fuel e s = Ok tt s' ->
        exists s1, Printer.wait_printer fuel e s = Ok tt s1
          /\ trace s' = trace s1 ++ streamed (badge_sequence pr) ++ [Stdout (badge_summary pr)])
  /\ (forall fuel e s, self s = pr -> dry_run (Printer.params pr) = false ->
        poll_answer (device e (reads s)) = inr true ->
        Printer.print fuel e s =
        Ok tt (mkState pr
                 (trace s ++ poll_events (device e (reads s))
                    ++ streamed (badge_sequence pr) ++ [Stdout (badge_summary pr)])
                 (S (reads s)))).
Proof.
  split; [reflexivity|]. split; [reflexivity|]. split; [reflexivity|].
  split; [reflexivity|]. split; [reflexivity|]. split; [reflexivity|].
  split; [reflexivity|]. split; [|split].
  - intros fuel e s <- Hdry. now apply print_dry_run.
  - intros fuel e s s' <- Hdry. rewrite print_streaming by assumption.
    destruct (Printer.wait_printer fuel e s) as [[] s1| |]; try discriminate.
    intros [= <-]. exists s1. split; reflexivity.
  - intros fuel e s <- Hdry Hready. rewrite print_streaming by assumption.
    rewrite badge_wait_printer_ready_first by assumption.
    unfold badge_polled. cbn [self trace reads]. now rewrite <- app_assoc.
Qed.

Lemma badge_body_unconditional_witness :
  self (fresh (blank_badge true)) = blank_badge true
  /\ dry_run (Printer.params (blank_badge true)) = true
  /\ Printer.print 0 silent_env (fresh (blank_badge true))
     = Ok tt (mkState (blank_badge true)
                (map Stdout
                   ["SIZE 100 mm,35 mm"; "GAP 2 mm,0 mm"; "CODEPAGE UTF-8"; "DIRECTION 1";
                    "CLS";
                    "TEXT 400,40," ^^ DQ ^^ "0" ^^ DQ ^^ ",0,36,36,2," ^^ DQ ^^ DQ;
                    "TEXT 400,144," ^^ DQ ^^ "0" ^^ DQ ^^ ",0,36,36,2," ^^ DQ ^^ DQ;
                    "PRINT 1,1"; " "]%string) 0)
  /\ dry_run (Printer.params (blank_badge false)) = false
  /\ poll_answer (device (always reply_ready) 0) = inr true
  /\ Printer.print 0 (always reply_ready) (fresh (blank_badge false))
     = Ok tt (mkState (blank_badge false)
                (poll_events reply_ready
                   ++ streamed (badge_sequence (blank_badge false)) ++ [Stdout " "])
                1).
Proof.
  split; [reflexivity|]. split; [reflexivity|].
  destruct (badge_body_unconditional (blank_badge true))
    as (_ & _ & _ & _ & _ & _ & _ & Hdry & _).
  destruct (badge_body_unconditional (blank_badge false))
    as (_ & _ & _ & _ & _ & _ & _ & _ & _ & Hdev).
  split; [exact (Hdry 0%nat silent_env (fresh (blank_badge true)) eq_refl eq_refl)|].
  split; [reflexivity|]. split; [reflexivity|].
  exact (Hdev 0%nat (always reply_ready) (fresh (blank_badge false)) eq_refl eq_refl eq_refl).
Defined.

End BadgeFacts.

(** ** Further properties of the label printer *)

Section Spooler.
Local Opaque Z.add Z.mul Z.div str String.append String.concat.

(** The spooler transport, from any buffer: the job holds the lines
    that were waiting followed by those of the label; when the spooler
    refuses the job, all of them stay in the buffer. *)
Lemma print_barcode_spooling fuel config e s :
  spooling (self s) ->
  print_barcode fuel config e s =
  let lines := pending (self s) ++ map wire_line (command_sequence config) in
  match spooler_error e with
  | None =>
      Ok tt (mkState (set_buffer (self s) (Some []))
               (trace s ++ [SpoolJob (printer_path (self s)) (job_payload lines)])
               (reads s))
  | Some msg =>
      Raise (Exception ("Failed to send data to Windows printer: " ^^ msg))
        (mkState (set_buffer (self s) (Some lines)) (trace s) (reads s))
  end.
Proof.
  intros [Hdry Hwin].
  rewrite command_sequence_eq.
  unfold preamble, top_lines, barcode_lines, bottom_lines, y_bottom, y_barcode,
    x_center, y_top, print_line, pending, job_payload, wire_line.
  destruct s as [[path dry win buf] tr rd]; simpl in Hdry, Hwin; subst dry win.
  destruct config as [w h g bt bh bw fs top bottom data o n].
  destruct e as [dev err].
  destruct err, buf as [[|c l]|], top, data, bottom; exec; flatten_trace; reflexivity.
Qed.

End Spooler.

Lemma encode_utf8_app a b : encode_utf8 (a ^^ b) = encode_utf8 a ++ encode_utf8 b.
Proof.
  unfold encode_utf8, list_byte_of_string.
  induction a as [|c a' IH]; cbn; [reflexivity|now f_equal].
Qed.

Lemma concat_empty_cons x xs :
  String.concat EmptyString (x :: xs) = x ^^ String.concat EmptyString xs.
Proof.
  destruct xs as [|y ys]; cbn; [|reflexivity].
  induction x as [|c x' IH]; cbn; [reflexivity|now f_equal].
Qed.

Lemma streamed_bytes cmds :
  List.concat (device_writes (streamed cmds)) = job_payload (map wire_line cmds).
Proof.
  unfold job_payload, wire_line. induction cmds as [|c cmds IH]; [reflexivity|].
  cbn [streamed flat_map app device_writes List.concat map] in *.
  rewrite concat_empty_cons, !encode_utf8_app, <- app_assoc. f_equal. f_equal.
  exact IH.
Qed.

(** X1. The streaming transport and the spooler transport deliver the
    same bytes for a label: what a returning operation writes to the
    device after its handshake, put end to end, is the payload of the job
    a returning operation hands to the spooler, namely the commands of the
    label each followed by CR LF. *)
Theorem same_bytes_on_both_transports config fuel1 fuel2 e1 e2 s1 s2 s1' s2' :
  streaming (self s1) -> spooling (self s2) -> buffer_clean (self s2) ->
  print_barcode fuel1 config e1 s1 = Ok tt s1' ->
  print_barcode fuel2 config e2 s2 = Ok tt s2' ->
  exists hs sent payload,
    trace s1' = trace s1 ++ hs ++ sent
    /\ Forall handshake_event hs
    /\ trace s2' = trace s2 ++ [SpoolJob (printer_path (self s2)) payload]
    /\ List.concat (device_writes sent) = payload
    /\ payload = job_payload (map wire_line (command_sequence config)).
Proof.
  intros [Hdry1 Hwin1] Hsp Hclean R1 R2.
  rewrite print_barcode_streaming in R1 by assumption.
  destruct (wait_printer fuel1 e1 s1) as [[] t| |] eqn:W; try discriminate.
  injection R1 as <-. apply wait_printer_handshake in W. destruct W as (hs & E & F).
  rewrite print_barcode_spooling in R2 by assumption. cbv zeta in R2.
  destruct (spooler_error e2); [discriminate|]. injection R2 as <-.
  assert (Hp : pending (self s2) = []).
  { unfold pending. destruct Hclean as [-> | ->]; reflexivity. }
  rewrite Hp. cbn [app trace].
  exists hs, (streamed (command_sequence config)),
    (job_payload (map wire_line (command_sequence config))).
  repeat split; try assumption.
  - now rewrite E, <- app_assoc.
  - apply streamed_bytes.
Qed.

Lemma same_bytes_on_both_transports_witness :
  streaming (self lp0) /\ spooling (self spool0) /\ buffer_clean (self spool0)
  /\ exists s1' s2',
       print_barcode 0 full_label (always reply_ready) lp0 = Ok tt s1'
       /\ print_barcode 0 full_label silent_env spool0 = Ok tt s2'
       /\ exists hs sent payload,
            trace s1' = trace lp0 ++ hs ++ sent
            /\ Forall handshake_event hs
            /\ trace s2' = trace spool0 ++ [SpoolJob (printer_path (self spool0)) payload]
            /\ List.concat (device_writes sent) = payload
            /\ payload = job_payload (map wire_line (command_sequence full_label)).
Proof.
  split; [split; reflexivity|]. split; [split; reflexivity|]. split; [left; reflexivity|].
  eexists. eexists. split; [vm_compute; reflexivity|]. split; [vm_compute; reflexivity|].
  eapply (same_bytes_on_both_transports full_label 0 0 (always reply_ready) silent_env
            lp0 spool0);
    [split; reflexivity | split; reflexivity | left; reflexivity
    | vm_compute; reflexivity | vm_compute; reflexivity].
Defined.



Lemma pending_clean p : buffer_clean p -> pending p = [].
Proof. unfold pending. now intros [-> | ->]. Qed.

Lemma print_labels_dry_run fuel configs : forall e s,
  dry_run (self s) = true ->
  print_labels fuel configs e s =
  Ok tt (mkState (self s)
           (trace s ++ map Stdout (flat_map command_sequence configs)) (reads s)).
Proof.
  induction configs as [|c configs IH]; intros e s Hdry.
  - cbn. unfold ret. destruct s. cbn. now rewrite app_nil_r.
  - unfold print_labels in *. cbn [for_each flat_map]. unfold bind at 1.
    rewrite print_barcode_dry_run by assumption.
    rewrite IH by assumption. cbn [self trace reads].
    now rewrite map_app, <- app_assoc.
Qed.

Lemma print_labels_spooling fuel configs : forall e s,
  spooling (self s) -> buffer_clean (self s) -> spooler_error e = None ->
  exists s',
    print_labels fuel configs e s = Ok tt s'
    /\ trace s' = trace s
         ++ flat_map (fun c => spooled (printer_path (self s)) (command_sequence c)) configs
    /\ reads s' = reads s
    /\ spooling (self s') /\ buffer_clean (self s')
    /\ printer_path (self s') = printer_path (self s).
Proof.
  induction configs as [|c configs IH]; intros e s Hsp Hclean Hup.
  - exists s. cbn. rewrite app_nil_r. repeat split; try assumption; apply Hsp.
  - unfold print_labels in *. cbn [for_each flat_map]. unfold bind at 1.
    rewrite print_barcode_spooling by assumption. cbv zeta. rewrite Hup.
    rewrite (pending_clean _ Hclean). cbn [app].
    match goal with
    | |- context [for_each configs _ e ?t] =>
        destruct (IH e t) as (s' & R & T & Rd & Sp & Cl & Pa)
    end.
    + cbn [self]. destruct Hsp. split; assumption.
    + cbn [self]. right. reflexivity.
    + exact Hup.
    + exists s'. split; [exact R|]. cbn [self trace reads set_buffer printer_path] in *.
      split; [|repeat split; try assumption; apply Sp].
      rewrite T, <- app_assoc. reflexivity.
Qed.

(** X3. Labels printed in a row on one printer object do not mix. On the
    dry-run transport the log is the command sequences of the labels one
    after the other; on the spooler transport, from a clean buffer and
    with the spooler accepting jobs, there is one job per label, holding
    the commands of that label only, and the buffer is clean again at the
    end. *)
Theorem batch_labels_do_not_mix fuel configs e s :
  (dry_run (self s) = true ->
     print_labels fuel configs e s =
     Ok tt (mkState (self s)
              (trace s ++ map Stdout (flat_map command_sequence configs)) (reads s)))
  /\ (spooling (self s) -> buffer_clean (self s) -> spooler_error e = None ->
      exists s',
        print_labels fuel configs e s = Ok tt s'
        /\ trace s' = trace s
             ++ map (fun c => SpoolJob (printer_path (self s))
                                (job_payload (map wire_line (command_sequence c))))
                  configs
        /\ buffer_clean (self s')).
Proof.
  split.
  - apply print_labels_dry_run.
  - intros Hsp Hclean Hup.
    destruct (print_labels_spooling fuel configs e s Hsp Hclean Hup)
      as (s' & R & T & _ & _ & Cl & _).
    exists s'. split; [exact R|]. split; [|exact Cl].
    rewrite T. f_equal.
Qed.

Lemma batch_labels_do_not_mix_witness :
  spooling (self spool0) /\ buffer_clean (self spool0) /\ spooler_error silent_env = None
  /\ exists s',
       print_labels 0 [full_label; bottom_only] silent_env spool0 = Ok tt s'
       /\ trace s' = trace spool0
            ++ map (fun c => SpoolJob (printer_path (self spool0))
                               (job_payload (map wire_line (command_sequence c))))
                 [full_label; bottom_only]
       /\ buffer_clean (self s').
Proof.
  split; [split; reflexivity|]. split; [left; reflexivity|]. split; [reflexivity|].
  apply (batch_labels_do_not_mix 0 [full_label; bottom_only] silent_env spool0);
    [split; reflexivity | left; reflexivity | reflexivity].
Defined.





Section Fields.
Local Opaque Z.add Z.mul Z.div str.

(** X6. The configured barcode type has no effect on what is printed:
    two labels that differ in [barcode_type] only have the same command
    sequence, whose BARCODE command always names the symbology 128. And
    the label height reaches the SIZE command only: two labels that
    differ in [height_mm] only have the same commands after the first. *)
Theorem barcode_type_and_height_unused w h h' g bt bt' bh bw fs top bottom data o n :
  command_sequence (mkConfig w h g bt bh bw fs top bottom data o n)
  = command_sequence (mkConfig w h g bt' bh bw fs top bottom data o n)
  /\ tl (command_sequence (mkConfig w h g bt bh bw fs top bottom data o n))
     = tl (command_sequence (mkConfig w h' g bt bh bw fs top bottom data o n))
  /\ forall c, In c (command_sequence (mkConfig w h g bt bh bw fs top bottom data o n)) ->
       is_barcode c = true ->
       exists x y, c = "BARCODE " ^^ str x ^^ "," ^^ str y ^^ "," ^^ DQ ^^ "128" ^^ DQ ^^ ","
                       ^^ str (bh * DOTS_MM) ^^ ",1,0," ^^ str bw ^^ ",2," ^^ DQ ^^ data ^^ DQ.
Proof.
  rewrite !command_sequence_eq.
  unfold preamble, top_lines, barcode_lines, bottom_lines, y_bottom, y_barcode, x_center,
    print_line.
  cbn [width_mm height_mm gap_mm barcode_type barcode_height barcode_width font_size
       top_text bottom_text barcode_data orientation num_copies].
  split; [reflexivity|]. split; [reflexivity|].
  intros c Hin Hbar.
  destruct top, data, bottom; cbn in Hin;
    repeat (destruct Hin as [<-|Hin]; [try discriminate Hbar|]); try contradiction;
    eexists _, _; reflexivity.
Qed.

Lemma barcode_type_and_height_unused_witness :
  let ean := mkConfig 100 50 2 "ean13" 15 2 24 "" "" "590123412345" 1 1 in
  let c := barcode_line 400 10 120 2 "590123412345" in
  In c (command_sequence ean) /\ is_barcode c = true
  /\ exists x y, c = "BARCODE " ^^ str x ^^ "," ^^ str y ^^ "," ^^ DQ ^^ "128" ^^ DQ ^^ ","
                     ^^ str (15 * DOTS_MM) ^^ ",1,0," ^^ str 2 ^^ ",2," ^^ DQ
                     ^^ "590123412345" ^^ DQ.
Proof.
  intros ean c.
  assert (Hin : In c (command_sequence ean)) by (vm_compute; tauto).
  assert (Hb : is_barcode c = true) by (vm_compute; reflexivity).
  split; [exact Hin|]. split; [exact Hb|].
  destruct (barcode_type_and_height_unused 100 50 50 2 "ean13" "ean13" 15 2 24 "" ""
              "590123412345" 1 1) as (_ & _ & H).
  exact (H c Hin Hb).
Defined.

(** X7. The horizontal centre is exactly four dots per millimetre of
    width, and with a non-negative font size and barcode height the
    elements go down the label: the barcode is placed at or below the top
    margin of 10 dots, at least 20 dots in when there is a top text, and
    the bottom text at or below the barcode, at least 20 dots further when
    there is a barcode. *)
Theorem placement_goes_down config :
  0 <= font_size config -> 0 <= barcode_height config ->
  exists y1 y2,
    let x := 4 * width_mm config in
    command_sequence config
    = preamble config
      ++ (if truthy (top_text config)
          then [text_line x 10 (font_size config) (top_text config)] else [])
      ++ (if truthy (barcode_data config)
          then [barcode_line x y1 (barcode_height config * DOTS_MM)
                  (barcode_width config) (barcode_data config)] else [])
      ++ (if truthy (bottom_text config)
          then [text_line x y2 (font_size config) (bottom_text config)] else [])
      ++ [print_line config]
    /\ 10 <= y1 <= y2
    /\ (truthy (top_text config) = true -> 20 <= y1)
    /\ (truthy (barcode_data config) = true -> y1 + 20 <= y2).
Proof.
  intros Hfs Hbh. exists (y_barcode config), (y_bottom config). cbv zeta.
  assert (Hx : width_mm config * DOTS_MM / 2 = 4 * width_mm config).
  { unfold DOTS_MM. replace (width_mm config * 8) with (4 * width_mm config * 2) by lia.
    apply Z.div_mul. lia. }
  split.
  - rewrite command_sequence_eq.
    unfold top_lines, barcode_lines, bottom_lines, x_center, y_top. now rewrite Hx.
  - unfold y_bottom, y_barcode, y_top, DOTS_MM.
    destruct (truthy (top_text config)), (truthy (barcode_data config));
      repeat split; intros; try discriminate; lia.
Qed.

Lemma placement_goes_down_witness :
  0 <= font_size full_label /\ 0 <= barcode_height full_label
  /\ exists y1 y2,
       command_sequence full_label
       = preamble full_label
         ++ [text_line 400 10 24 "PRODUCT";
             barcode_line 400 y1 120 2 "123456789012";
             text_line 400 y2 24 "Made in USA";
             print_line full_label]
       /\ 10 <= y1 <= y2.
Proof.
  split; [cbn; lia|]. split; [cbn; lia|].
  destruct (placement_goes_down full_label) as (y1 & y2 & E & B & _);
    [cbn; lia | cbn; lia |].
  exists y1, y2. split; [exact E | exact B].
Defined.

End Fields.

(** ** Constructing a printer object *)

Lemma constructed_object h path dry p :
  ThermalPrinter_init h path dry = inr p ->
  p = mkPrinter path dry (windows h) None /\ buffer_clean p.
Proof.
  unfold ThermalPrinter_init.
  destruct dry, (windows h), (is_com_path path), (win32print_missing h),
    (device_open_error h path) as [msg|]; cbn; intros Hp;
    try discriminate Hp; injection Hp as <-; (split; [reflexivity|now left]).
Qed.

(** X8. Constructing a printer object succeeds exactly in these cases:
    for a dry run, always; otherwise on Windows when the path does not
    begin with COM in any letter case and the spooler bindings can be
    imported, and elsewhere when the device node opens. A path beginning
    with COM is refused on Windows whether or not the bindings are there.
    The object constructed has the given path and mode, the transport of
    the platform and no command buffer. *)
Theorem construction_outcome h path dry :
  ((exists p, ThermalPrinter_init h path dry = inr p) <->
     dry = true
     \/ (windows h = true /\ is_com_path path = false /\ win32print_missing h = false)
     \/ (windows h = false /\ device_open_error h path = None))
  /\ (forall p, ThermalPrinter_init h path dry = inr p ->
        p = mkPrinter path dry (windows h) None /\ buffer_clean p)
  /\ (dry = false -> windows h = true -> is_com_path path = true ->
        ThermalPrinter_init h path dry
        = inl (Exception ("Cannot open printer at " ^^ path
                            ^^ ": COM port access requires pyserial. Use printer name instead.")))
  /\ (forall x, ThermalPrinter_init h path dry = inl x ->
        exists msg, x = Exception ("Cannot open printer at " ^^ path ^^ ": " ^^ msg)).
Proof.
  unfold ThermalPrinter_init.
  split; [|split; [|split]].
  - destruct dry, (windows h), (is_com_path path), (win32print_missing h),
      (device_open_error h path) as [msg|]; cbn;
      (split;
       [ intros [p Hp]; first [discriminate Hp | solve [auto 8]]
       | intros H;
         first [ solve [eexists; reflexivity]
               | destruct H as [H|[(H1 & H2 & H3)|(H1 & H2)]]; discriminate ] ]).
  - intros p. fold (ThermalPrinter_init h path dry). apply constructed_object.
  - intros -> Hw Hc. now rewrite Hw, Hc.
  - intros x.
    destruct dry, (windows h), (is_com_path path), (win32print_missing h),
      (device_open_error h path) as [msg|]; cbn; intros Hx;
      try discriminate Hx; injection Hx as <-; eexists; reflexivity.
Qed.

Lemma construction_outcome_witness :
  ThermalPrinter_init windows_host "com3" false
  = inl (Exception ("Cannot open printer at " ^^ "com3"
                      ^^ ": COM port access requires pyserial. Use printer name instead."))
  /\ ThermalPrinter_init linux_host "/dev/usb/lp0" false
     = inr (mkPrinter "/dev/usb/lp0" false false None).
Proof.
  destruct (construction_outcome windows_host "com3" false) as (_ & _ & Hcom & _).
  destruct (construction_outcome linux_host "/dev/usb/lp0" false) as (Hiff & Hobj & _).
  split; [apply Hcom; reflexivity|].
  destruct (proj2 Hiff) as [p Hp]; [right; right; split; reflexivity|].
  rewrite Hp. f_equal. apply (Hobj p Hp).
Defined.

(** X9. A printer object prints as constructed: whatever object the
    constructor returns, a print operation on it that returns has carried
    the command sequence of the label on the transport of the object,
    after handshake events only; and an object constructed for a dry run,
    on any host and for any path, makes every print operation return with
    the sequence logged, nothing read. *)
Theorem constructed_printer_prints h path dry p :
  ThermalPrinter_init h path dry = inr p ->
  (forall fuel config e s',
     print_barcode fuel config e (fresh p) = Ok tt s' ->
     exists hs,
       trace s' = hs ++ carried_by p (command_sequence config)
       /\ Forall handshake_event hs)
  /\ (dry = true -> forall fuel config e,
        print_barcode fuel config e (fresh p)
        = Ok tt (mkState p (map Stdout (command_sequence config)) 0)).
Proof.
  intros Hinit.
  destruct (constructed_object h path dry p Hinit) as [-> Hclean]. split.
  - intros fuel config e s' Hrun.
    apply (print_barcode_carries fuel config e (fresh _) s' Hclean Hrun).
  - intros -> fuel config e. now rewrite print_barcode_dry_run.
Qed.

Lemma constructed_printer_prints_witness :
  ThermalPrinter_init windows_host "COM1" true = inr (mkPrinter "COM1" true true None)
  /\ print_barcode 0 full_label silent_env (fresh (mkPrinter "COM1" true true None))
     = Ok tt (mkState (mkPrinter "COM1" true true None)
                (map Stdout (command_sequence full_label)) 0).
Proof.
  split; [reflexivity|].
  apply (constructed_printer_prints windows_host "COM1" true); reflexivity.
Defined.

(** ** Errors in the middle of the wait *)

Lemma wait_loop_raises_after n : forall fuel e s x,
  streaming (self s) ->
  (forall i, (i < n)%nat -> poll_answer (device e (reads s + i)) = inr false) ->
  poll_answer (device e (reads s + n)) = inl x ->
  (n < fuel)%nat ->
  wait_loop fuel e s =
  Raise x (mkState (self s)
             (trace s ++ retries e (reads s) n ++ poll_events (device e (reads s + n)))
             (reads s + S n)).
Proof.
  induction n as [|n IH]; intros fuel e s x Hs Hbusy Hbad Hfuel;
    (destruct fuel as [|fuel]; [lia|]);
    cbn [wait_loop]; unfold bind at 1; rewrite can_print_streaming by assumption.
  - rewrite Nat.add_0_r in Hbad. rewrite Hbad. cbn [retries app].
    unfold polled. now rewrite Nat.add_0_r, Nat.add_1_r.
  - pose proof (Hbusy 0%nat ltac:(lia)) as H0. rewrite Nat.add_0_r in H0. rewrite H0.
    cbn [negb]. unfold bind at 1. unfold time_sleep, emit.
    rewrite (IH fuel e _ x); cbn [self trace reads polled]; try assumption; try lia.
    + replace (S (reads s) + n)%nat with (reads s + S n)%nat by lia.
      replace (S (reads s) + S n)%nat with (reads s + S (S n))%nat by lia.
      cbn [retries]. rewrite <- !app_assoc. reflexivity.
    + intros i Hi. replace (S (reads s) + i)%nat with (reads s + S i)%nat by lia.
      apply Hbusy. lia.
    + now replace (S (reads s) + n)%nat with (reads s + S n)%nat by lia.
Qed.

Lemma retries_handshake e n : forall k, Forall handshake_event (retries e k n).
Proof.
  induction n as [|n IH]; intros k; cbn [retries poll_events app]; repeat constructor.
  apply IH.
Qed.

(** X10. A reply that cannot be decoded ends the wait at whichever poll
    it comes: if a streaming device answers not ready n+1 times and then
    sends a reply whose status bytes are not all ASCII, the print
    operation raises the decoding error after exactly n+2 queries, having
    slept 0.5 once and 1 after each further refusal, and having written
    nothing to the device but its probes. *)
Theorem decode_error_ends_wait n fuel config e s x :
  streaming (self s) ->
  (forall i, (i <= n)%nat -> poll_answer (device e (reads s + i)) = inr false) ->
  poll_answer (device e (reads s + S n)) = inl x ->
  (n < fuel)%nat ->
  exists hs,
    print_barcode fuel config e s
    = Raise x (mkState (self s) (trace s ++ hs) (reads s + S (S n)))
    /\ Forall handshake_event hs
    /\ List.length (device_reads hs) = S (S n)
    /\ sleeps hs = (1 # 2)%Q :: repeat 1%Q n
    /\ x = UnicodeDecodeError.
Proof.
  intros Hs Hbusy Hbad Hfuel.
  assert (Hx : x = UnicodeDecodeError).
  { unfold poll_answer, decode_ascii in Hbad.
    destruct (forallb is_ascii _); [discriminate|]. now injection Hbad as <-. }
  eexists. split; [|split; [|split; [|split; [|exact Hx]]]].
  - destruct Hs as [Hdry Hwin]. rewrite print_barcode_streaming by assumption.
    rewrite wait_printer_busy_first; [|split; assumption|].
    2:{ specialize (Hbusy 0%nat ltac:(lia)). now rewrite Nat.add_0_r in Hbusy. }
    rewrite (wait_loop_raises_after n fuel e _ x); cbn [self trace reads].
    + replace (S (reads s) + n)%nat with (reads s + S n)%nat by lia.
      replace (S (reads s) + S n)%nat with (reads s + S (S n))%nat by lia.
      rewrite <- !app_assoc. reflexivity.
    + split; assumption.
    + intros i Hi. replace (S (reads s) + i)%nat with (reads s + S i)%nat by lia.
      apply Hbusy. lia.
    + now replace (S (reads s) + n)%nat with (reads s + S n)%nat by lia.
    + assumption.
  - apply Forall_app. split; [repeat constructor|].
    constructor; [exact I|]. constructor; [exact I|].
    apply Forall_app. split; [apply retries_handshake|repeat constructor].
  - rewrite !device_reads_app, !length_app, retries_reads. cbn. lia.
  - rewrite !sleeps_app, retries_sleeps. cbn. now rewrite app_nil_r.
Qed.

Lemma decode_error_ends_wait_witness :
  let e := mkEnv (fun k => if (k <? 2)%nat then reply_busy else reply_high) None in
  streaming (self lp0)
  /\ poll_answer (device e (reads lp0 + 2)) = inl UnicodeDecodeError
  /\ exists hs,
       print_barcode 5 full_label e lp0
       = Raise UnicodeDecodeError (mkState (self lp0) (trace lp0 ++ hs) (reads lp0 + 3))
       /\ List.length (device_reads hs) = 3%nat.
Proof.
  intros e. split; [split; reflexivity|]. split; [reflexivity|].
  destruct (decode_error_ends_wait 1 5 full_label e lp0 UnicodeDecodeError)
    as (hs & R & _ & L & _).
  - split; reflexivity.
  - intros i Hi. destruct i as [|[|i]]; [reflexivity | reflexivity | lia].
  - reflexivity.
  - lia.
  - exists hs. split; [exact R | exact L].
Defined.

(** ** Further properties of the badge printer *)

Module BadgeMore.
Import PrintBadge.








Section Commands.
Local Opaque Z.add Z.mul Z.div str.


End Commands.
(** *** The prompt and the errors of [main] *)

Lemma confirm_answer params h reply :
  stdin_reply h = Some reply ->
  Confirm.confirm params h
  = (confirm_shown params h ++ [Io (Stdout EmptyString)], inr (accepted_reply reply)).
Proof.
  intros H. unfold Confirm.confirm, confirm_shown. rewrite H. f_equal. f_equal.
  destruct reply as [|c r]; [reflexivity|]. cbn [accepted_reply py_len].
  destruct (Ascii.eqb c "y") eqn:Ey; [apply Ascii.eqb_eq in Ey; subst c; reflexivity|].
  destruct (Ascii.eqb c "Y") eqn:EY; [apply Ascii.eqb_eq in EY; subst c; reflexivity|].
  cbn [orb]. rewrite andb_false_r. reflexivity.
Qed.

Lemma confirm_eof params h :
  stdin_reply h = None ->
  Confirm.confirm params h
  = (confirm_shown params h, inl (Exception "EOF when reading a line")).
Proof. intros H. unfold Confirm.confirm, confirm_shown. now rewrite H. Qed.

Lemma badge_wait_printer_raises fuel e s x :
  dry_run (Printer.params (self s)) = false ->
  poll_answer (device e (reads s)) = inl x ->
  Printer.wait_printer fuel e s = Raise x (badge_polled e s).
Proof.
  intros Hdry Hx. unfold Printer.wait_printer. unfold bind at 1. unfold get_self.
  rewrite Hdry. unfold bind at 1. rewrite BadgeFacts.can_print_poll. now rewrite Hx.
Qed.

Lemma shown_no_device_io params h :
  Forall (fun ev => cli_device_io ev = false) (confirm_shown params h).
Proof.
  unfold confirm_shown. apply Forall_app. split.
  - apply Forall_forall. intros ev Hin. apply in_map_iff in Hin.
    destruct Hin as (l & <- & _). reflexivity.
  - repeat constructor.
Qed.



(** X13. Without [--yes], [main] prints only on an accepting reply. A
    reply that is not empty and does not begin with y or Y ends the run
    after the preview and the prompt, with nothing written or read on the
    device; an empty reply or one beginning with y or Y lets the badge be
    printed after the preview and the prompt (on a dry run: the 8 commands
    and the summary line are logged); and at end of input the error of
    the prompt is reported on the error stream and nothing reaches the
    device. *)
Theorem main_asks_before_printing describe h e fuel args :
  yes args = false ->
  let shown := confirm_shown (stripped args) h in
  let pr := make_printer (stripped args) in
  (forall reply, stdin_reply h = Some reply -> accepted_reply reply = false ->
     main describe h e fuel args = Some (shown ++ [Io (Stdout EmptyString)])
     /\ Forall (fun ev => cli_device_io ev = false) (shown ++ [Io (Stdout EmptyString)]))
  /\ (forall reply, stdin_reply h = Some reply -> accepted_reply reply = true ->
      dry_run args = true ->
      main describe h e fuel args
      = Some (shown ++ [Io (Stdout EmptyString)]
              ++ map (fun c => Io (Stdout c)) (badge_sequence pr)
              ++ [Io (Stdout (badge_summary pr))]))
  /\ (stdin_reply h = None ->
      main describe h e fuel args
      = Some (shown ++ [Io (Stderr (describe (Exception "EOF when reading a line") ^^ NL))])
      /\ Forall (fun ev => cli_device_io ev = false) shown).
Proof.
  destruct args as [dry y n o l1 l2]. cbn [yes dry_run]. intros ->. cbv zeta.
  unfold stripped, main. cbn [dry_run yes num orient line1 line2].
  split; [|split].
  - intros reply Hr Hacc. split.
    + rewrite (confirm_answer _ _ _ Hr), Hacc. reflexivity.
    + apply Forall_app. split; [apply shown_no_device_io|repeat constructor].
  - intros reply Hr Hacc ->.
    rewrite (confirm_answer _ _ _ Hr), Hacc.
    rewrite BadgeFacts.print_dry_run by reflexivity.
    cbn [app trace fresh self].
    now rewrite map_app, map_map, <- !app_assoc.
  - intros Hr. split; [|apply shown_no_device_io].
    now rewrite (confirm_eof _ _ Hr).
Qed.

Lemma main_asks_before_printing_witness :
  let args := mkParams false false 1 1 "John" "Smith" in
  let h := mkCliHost (Some "no"%string) None in
  yes args = false /\ stdin_reply h = Some "no"%string /\ accepted_reply "no" = false
  /\ main (fun _ => EmptyString) h (always reply_ready) 3 args
     = Some (confirm_shown (stripped args) h ++ [Io (Stdout EmptyString)]).
Proof.
  intros args h. do 3 (split; [reflexivity|]).
  destruct (main_asks_before_printing (fun _ => EmptyString) h (always reply_ready) 3 args
              eq_refl) as (H & _).
  apply (H "no"%string eq_refl eq_refl).
Defined.

(** X14. An error while printing a badge does not leave [main]: it is
    written on the error stream and the run ends. When the device node
    does not open, that is all that happens; when the first status reply
    cannot be decoded, the probe and the read are the only device events,
    and no command has been sent. *)
Theorem main_reports_errors describe h e fuel args :
  yes args = true -> dry_run args = false ->
  (forall msg, open_error h = Some msg ->
     main describe h e fuel args = Some [Io (Stderr (describe (Exception msg) ^^ NL))])
  /\ (forall x, open_error h = None -> poll_answer (device e 0) = inl x ->
      main describe h e fuel args
      = Some (map Io (poll_events (device e 0)) ++ [Io (Stderr (describe x ^^ NL))])).
Proof.
  intros Hyes Hdry. split.
  - intros msg Hopen. unfold main. cbn [yes dry_run]. now rewrite Hyes, Hdry, Hopen.
  - intros x Hopen Hx. unfold main. cbn [yes dry_run]. rewrite Hyes, Hdry, Hopen.
    rewrite BadgeFacts.print_streaming by reflexivity.
    rewrite badge_wait_printer_raises with (x := x) by (cbn; first [reflexivity|assumption]).
    reflexivity.
Qed.

Lemma main_reports_errors_witness :
  let args := mkParams false true 1 1 "John" "Smith" in
  yes args = true /\ dry_run args = false
  /\ poll_answer (device (always reply_high) 0) = inl UnicodeDecodeError
  /\ main (fun _ => "decode error"%string) (mkCliHost None None) (always reply_high) 3 args
     = Some [Io (DevWrite STATUS_PROBE); Io (DevRead 8 reply_high);
             Io (Stderr ("decode error" ^^ NL))].
Proof.
  intros args. do 3 (split; [reflexivity|]).
  destruct (main_reports_errors (fun _ => "decode error"%string) (mkCliHost None None)
              (always reply_high) 3 args eq_refl eq_refl) as (_ & H).
  apply (H UnicodeDecodeError eq_refl eq_refl).
Defined.

(** *** The wait of the badge printer *)

Lemma badge_wait_loop_ready_after n : forall fuel e s,
  (forall i, (i < n)%nat -> poll_answer (device e (reads s + i)) = inr false) ->
  poll_answer (device e (reads s + n)) = inr true ->
  (n < fuel)%nat ->
  Printer.wait_loop fuel e s =
  Ok tt (mkState (self s)
           (trace s ++ badge_retries e (reads s) n ++ poll_events (device e (reads s + n)))
           (reads s + S n)).
Proof.
  induction n as [|n IH]; intros fuel e s Hbusy Hready Hfuel;
    (destruct fuel as [|fuel]; [lia|]);
    cbn [Printer.wait_loop]; unfold bind at 1; rewrite BadgeFacts.can_print_poll.
  - rewrite Nat.add_0_r in Hready. rewrite Hready. cbn [negb badge_retries app].
    unfold ret, badge_polled. now rewrite Nat.add_0_r, Nat.add_1_r.
  - pose proof (Hbusy 0%nat ltac:(lia)) as H0. rewrite Nat.add_0_r in H0. rewrite H0.
    cbn [negb]. unfold bind at 1. unfold print_stderr, emit.
    unfold bind at 1. unfold time_sleep, emit.
    rewrite IH; cbn [self trace reads badge_polled]; try lia.
    + replace (S (reads s) + n)%nat with (reads s + S n)%nat by lia.
      replace (S (reads s) + S n)%nat with (reads s + S (S n))%nat by lia.
      cbn [badge_retries]. rewrite <- !app_assoc. reflexivity.
    + intros i Hi. replace (S (reads s) + i)%nat with (reads s + S i)%nat by lia.
      apply Hbusy. lia.
    + now replace (S (reads s) + n)%nat with (reads s + S n)%nat by lia.
Qed.

Lemma badge_wait_loop_never_ready fuel : forall e s,
  (forall i, poll_answer (device e (reads s + i)) = inr false) ->
  Printer.wait_loop fuel e s = OutOfFuel.
Proof.
  induction fuel as [|fuel IH]; intros e s Hbusy; [reflexivity|].
  cbn [Printer.wait_loop]. unfold bind at 1. rewrite BadgeFacts.can_print_poll.
  pose proof (Hbusy 0%nat) as H0. rewrite Nat.add_0_r in H0. rewrite H0.
  cbn [negb]. unfold bind at 1. unfold print_stderr, emit.
  unfold bind at 1. unfold time_sleep, emit.
  apply IH; cbn [self trace reads badge_polled].
  intros i. replace (S (reads s) + i)%nat with (reads s + S i)%nat by lia. apply Hbusy.
Qed.

Lemma badge_retries_reads e n : forall k, List.length (device_reads (badge_retries e k n)) = n.
Proof.
  induction n as [|n IH]; intros k; [reflexivity|].
  cbn [badge_retries poll_events app device_reads flat_map List.length]. f_equal. apply IH.
Qed.

Lemma badge_retries_sleeps e n : forall k, sleeps (badge_retries e k n) = repeat 1%Q n.
Proof.
  induction n as [|n IH]; intros k; [reflexivity|].
  cbn [badge_retries poll_events app sleeps flat_map repeat]. f_equal. apply IH.
Qed.

(** X15. The badge printer waits like the label printer, marking its
    wait on the error stream. When the device is not a dry run and
    answers not ready n+1 times and then ready, the wait returns after
    exactly n+2 status queries: first query, the notice, a sleep of 0.5,
    then n rounds of query, dot and sleep of 1, the last query and a line
    feed on the error stream. A device that is ready at the first query
    is queried once and nothing is slept or written to the error stream;
    a device that never answers ready keeps the wait from returning,
    whatever the fuel. *)
Theorem badge_backoff_schedule e s :
  dry_run (Printer.params (self s)) = false ->
  (forall n fuel, (n < fuel)%nat ->
     (forall i, (i <= n)%nat -> poll_answer (device e (reads s + i)) = inr false) ->
     poll_answer (device e (reads s + S n)) = inr true ->
     exists hs,
       Printer.wait_printer fuel e s
       = Ok tt (mkState (self s) (trace s ++ hs) (reads s + S (S n)))
       /\ hs = poll_events (device e (reads s))
               ++ [Stderr "...waiting printer..."; Sleep (1 # 2)]
               ++ badge_retries e (S (reads s)) n
               ++ poll_events (device e (reads s + S n))
               ++ [Stderr NL]
       /\ List.length (device_reads hs) = S (S n)
       /\ sleeps hs = (1 # 2)%Q :: repeat 1%Q n)
  /\ (poll_answer (device e (reads s)) = inr true ->
      forall fuel, Printer.wait_printer fuel e s = Ok tt (badge_polled e s))
  /\ ((forall i, poll_answer (device e (reads s + i)) = inr false) ->
      forall fuel, Printer.wait_printer fuel e s = OutOfFuel).
Proof.
  intros Hdry. split; [|split].
  - intros n fuel Hfuel Hbusy Hready. eexists. split; [|split; [reflexivity|split]].
    + unfold Printer.wait_printer. unfold bind at 1. unfold get_self. rewrite Hdry.
      unfold bind at 1. rewrite BadgeFacts.can_print_poll.
      pose proof (Hbusy 0%nat ltac:(lia)) as H0. rewrite Nat.add_0_r in H0. rewrite H0.
      cbn [negb]. unfold bind at 1. unfold print_stderr, emit.
      unfold bind at 1. unfold time_sleep, emit. unfold bind at 1.
      rewrite (badge_wait_loop_ready_after n); cbn [self trace reads badge_polled]; try lia.
      * replace (S (reads s) + n)%nat with (reads s + S n)%nat by lia.
        replace (S (reads s) + S n)%nat with (reads s + S (S n))%nat by lia.
        cbn [String.append]. rewrite <- !app_assoc. reflexivity.
      * intros i Hi. replace (S (reads s) + i)%nat with (reads s + S i)%nat by lia.
        apply Hbusy. lia.
      * now replace (S (reads s) + n)%nat with (reads s + S n)%nat by lia.
    + rewrite !device_reads_app, !length_app, badge_retries_reads. cbn. lia.
    + rewrite !sleeps_app, badge_retries_sleeps. cbn. now rewrite app_nil_r.
  - intros Hready fuel. now apply BadgeFacts.badge_wait_printer_ready_first.
  - intros Hbusy fuel.
    unfold Printer.wait_printer. unfold bind at 1. unfold get_self. rewrite Hdry.
    unfold bind at 1. rewrite BadgeFacts.can_print_poll.
    pose proof (Hbusy 0%nat) as H0. rewrite Nat.add_0_r in H0. rewrite H0.
    cbn [negb]. unfold bind at 1. unfold print_stderr, emit.
    unfold bind at 1. unfold time_sleep, emit. unfold bind at 1.
    rewrite badge_wait_loop_never_ready; [reflexivity|].
    cbn [self trace reads badge_polled]. intros i.
    replace (S (reads s) + i)%nat with (reads s + S i)%nat by lia. apply Hbusy.
Qed.

Lemma badge_backoff_schedule_witness :
  let s := fresh (blank_badge false) in
  dry_run (Printer.params (self s)) = false
  /\ Printer.wait_printer 2 (busy_then_ready 2) s
     = Ok tt (mkState (self s)
                [DevWrite STATUS_PROBE; DevRead 8 reply_busy;
                 Stderr "...waiting printer..."; Sleep (1 # 2);
                 DevWrite STATUS_PROBE; DevRead 8 reply_busy; Stderr "."; Sleep 1;
                 DevWrite STATUS_PROBE; DevRead 8 reply_ready; Stderr NL] 3)
  /\ (forall fuel, Printer.wait_printer fuel (always reply_busy) s = OutOfFuel).
Proof.
  intros s. split; [reflexivity|].
  destruct (badge_backoff_schedule (busy_then_ready 2) s eq_refl) as (H & _ & _).
  destruct (badge_backoff_schedule (always reply_busy) s eq_refl) as (_ & _ & H').
  split.
  - destruct (H 1%nat 2%nat ltac:(lia)) as (hs & R & E & _).
    + intros i Hi. destruct i as [|[|i]]; [reflexivity | reflexivity | lia].
    + reflexivity.
    + rewrite R, E. reflexivity.
  - apply H'. intros i. reflexivity.
Defined.

(** *** The preview *)

Lemma py_len_app a b : py_len (a ^^ b) = (py_len a + py_len b)%nat.
Proof.
  induction a as [|c a' IH]; cbn [String.append py_len]; [reflexivity|].
  destruct (is_continuation c); cbn; now rewrite IH.
Qed.

Lemma py_len_spaces n : py_len (String.concat EmptyString (repeat " "%string n)) = n.
Proof.
  induction n as [|n IH]; [reflexivity|].
  cbn [repeat]. rewrite concat_empty_cons, py_len_app, IH. reflexivity.
Qed.

(** X16. The preview centres a line in 16 columns: the line is printed
    after k spaces, where for a line of at most 16 characters k is half
    the room left, rounded down, so that the room on the right is k or
    k + 1 and the whole fits in 16 columns; a line of 15 characters or
    more is printed as it is, however long. *)
Theorem preview_line_is_centred line :
  exists k : nat,
    Confirm.print_line_centered line = String.concat EmptyString (repeat " "%string k) ^^ line
    /\ py_len (Confirm.print_line_centered line) = (k + py_len line)%nat
    /\ ((py_len line <= 16)%nat ->
          (2 * k <= 16 - py_len line <= 2 * k + 1)%nat
          /\ (py_len (Confirm.print_line_centered line) <= 16)%nat)
    /\ ((15 <= py_len line)%nat -> k = 0%nat /\ Confirm.print_line_centered line = line).
Proof.
  exists (Z.to_nat ((PREVIEW_WIDTH - Z.of_nat (py_len line)) / 2)).
  unfold Confirm.print_line_centered, str_mul, PREVIEW_WIDTH. cbv zeta.
  split; [reflexivity|]. split; [now rewrite py_len_app, py_len_spaces|].
  split.
  - intros Hlen. rewrite py_len_app, py_len_spaces.
    assert (H : 0 <= (16 - Z.of_nat (py_len line)) / 2) by (apply Z.div_pos; lia).
    pose proof (Z.div_mod (16 - Z.of_nat (py_len line)) 2 ltac:(lia)) as Hdm.
    pose proof (Z.mod_pos_bound (16 - Z.of_nat (py_len line)) 2 ltac:(lia)) as Hm.
    split; lia.
  - intros Hlen.
    assert (H : (16 - Z.of_nat (py_len line)) / 2 <= 0).
    { pose proof (Z.div_mod (16 - Z.of_nat (py_len line)) 2 ltac:(lia)) as Hdm.
      pose proof (Z.mod_pos_bound (16 - Z.of_nat (py_len line)) 2 ltac:(lia)) as Hm.
      lia. }
    assert (E : Z.to_nat ((16 - Z.of_nat (py_len line)) / 2) = 0%nat) by lia.
    rewrite E. split; reflexivity.
Qed.

Lemma preview_line_is_centred_witness :
  (py_len "John" <= 16)%nat
  /\ Confirm.print_line_centered "John" = "      John"%string
  /\ Confirm.print_line_centered "A name longer than the preview"
     = "A name longer than the preview"%string.
Proof.
  assert (L : py_len "John" = 4%nat) by reflexivity.
  assert (L' : py_len "A name longer than the preview" = 30%nat) by reflexivity.
  split; [rewrite L; lia|].
  destruct (preview_line_is_centred "John") as (k & E & _ & H & _).
  destruct (H ltac:(rewrite L; lia)) as ((Hlo & Hhi) & _).
  destruct (preview_line_is_centred "A name longer than the preview") as (k' & _ & _ & _ & H').
  split.
  - rewrite E. rewrite L in Hlo, Hhi. replace k with 6%nat by lia. reflexivity.
  - apply H'. rewrite L'. lia.
Defined.

End BadgeMore.
